(** * JS-Filter: the popup that lists, stores and removes a tab's external scripts

    A shallow embedding of [scripts/blocking.js], of the two revisions of
    [scripts/script.js] and of the popup script that carries the save button.
    The browser is a [Host]: the URL constructor, the active tab, the storage
    areas and their failures.  Everything the scripts change lives in a
    [World]: the storage areas, the tab's page, the popup's list and the
    record of observable events (host calls, listeners, console lines). *)

From Stdlib Require Import ZArith String Ascii List Bool DecimalString DecimalZ DecimalPos.
From stdpp Require Import base gmap strings list fin_maps.

Open Scope string_scope.
Open Scope list_scope.

#[local] Set Warnings "-register-all".

(** ** Strings as JavaScript sees them *)

(** The double quote, U+0022. *)
Definition dquote : string := String "034"%char EmptyString.

(** [Boolean(s)] for a string: only the empty string is falsy. *)
Definition truthy_str (s : string) : bool :=
  match s with
  | EmptyString => false
  | String _ _ => true
  end.

Definition lower_ascii (c : ascii) : ascii :=
  let n := nat_of_ascii c in
  if (65 <=? n)%nat && (n <=? 90)%nat then ascii_of_nat (n + 32) else c.

(** [s.toLowerCase()] on ASCII. *)
Fixpoint toLowerCase (s : string) : string :=
  match s with
  | EmptyString => EmptyString
  | String c r => String (lower_ascii c) (toLowerCase r)
  end.

Fixpoint starts_with (p s : string) : bool :=
  match p, s with
  | EmptyString, _ => true
  | String a p', String b s' => Ascii.eqb a b && starts_with p' s'
  | String _ _, EmptyString => false
  end.

(** [s.includes(p)]. *)
Fixpoint includes (p s : string) : bool :=
  starts_with p s ||
  match s with
  | EmptyString => false
  | String _ s' => includes p s'
  end.

(** Number of positions of [s] at which [p] starts. *)
Fixpoint occurrences (p s : string) : nat :=
  (if starts_with p s then 1 else 0) +
  match s with
  | EmptyString => 0
  | String _ s' => occurrences p s'
  end.

(** [Set.prototype.has] and [Array.prototype.includes] on strings: exact
    equality of the two strings. *)
Definition has (l : list string) (x : string) : bool := existsb (String.eqb x) l.

(** [s.split("/").pop()]: what follows the last slash, all of [s] when it
    has none. *)
Fixpoint last_segment_from (acc s : string) : string :=
  match s with
  | EmptyString => acc
  | String c r =>
      if Ascii.eqb c "/"%char then last_segment_from EmptyString r
      else last_segment_from (acc +:+ String c EmptyString) r
  end.

Definition split_pop (s : string) : string := last_segment_from EmptyString s.

(** ** The host *)

(** A tab as [chrome.tabs.query] reports it; both fields can be missing. *)
Record Tab := { tab_id : option Z; tab_url : option string }.

(** The browser around the scripts.  [URL_href raw base] is
    [new URL(raw, base).href], [None] when the constructor throws.  The
    [*_fails] flags say whether a storage call of that kind fails (the
    callback then runs with [chrome.runtime.lastError] set and no result). *)
Record Host := {
  URL_href : string -> string -> option string;
  active_tab : option Tab;
  popup_href : string;
  has_session : bool;
  get_fails : bool;
  set_fails : bool;
  remove_fails : bool
}.

(** [!id] is false for a number other than 0; [undefined] and 0 are falsy. *)
Definition truthy_id (id : option Z) : bool :=
  match id with
  | Some z => negb (z =? 0)%Z
  | None => false
  end.

(** ** Storage *)

(** What the scripts store: an object from URL to [true], or an array of
    URLs. *)
Inductive JVal :=
| VMap (m : gmap string bool)
| VList (l : list string).

Record Storage := { session : gmap string JVal; local : gmap string JVal }.

(** The area the Block Store talks to: [chrome.storage.session] when it
    exists, [chrome.storage.local] otherwise. *)
Definition store_area (h : Host) (st : Storage) : gmap string JVal :=
  if has_session h then session st else local st.

Definition with_store_area (h : Host) (a : gmap string JVal) (st : Storage) : Storage :=
  if has_session h then {| session := a; local := local st |}
  else {| session := session st; local := a |}.

(** [area.get(key, cb)]: on success the callback receives the object that
    holds [key] when it is stored; on failure it receives [undefined]. *)
Definition area_get (fails : bool) (key : string) (a : gmap string JVal)
  : option (gmap string JVal) :=
  if fails then None
  else Some (match a !! key with
             | Some v => {[ key := v ]}
             | None => ∅
             end).

(** [area.set(obj, cb)]: every entry of [obj] is written, unless the call
    fails. *)
Definition area_set (fails : bool) (obj a : gmap string JVal) : gmap string JVal :=
  if fails then a else obj ∪ a.

Definition area_remove (fails : bool) (key : string) (a : gmap string JVal)
  : gmap string JVal :=
  if fails then a else delete key a.

(** *** blocking.js, lines 8-36 *)

(** [resolve(res || {})]: the promise always resolves, to the empty object
    when there is no result. *)
Definition storageGet (h : Host) (key : string) (st : Storage) : gmap string JVal :=
  match area_get (get_fails h) key (store_area h st) with
  | Some res => res
  | None => ∅
  end.

Definition storageSet (h : Host) (obj : gmap string JVal) (st : Storage) : Storage :=
  with_store_area h (area_set (set_fails h) obj (store_area h st)) st.

Definition storageRemoveKey (h : Host) (key : string) (st : Storage) : Storage :=
  with_store_area h (area_remove (remove_fails h) key (store_area h st)) st.

(** *** blocking.js, lines 98-119 *)

Definition STORAGE_KEY : string := "blocked_scripts".

(** [res[STORAGE_KEY] || {}].  Only objects are written under
    [STORAGE_KEY] ([setBlockedMap] is its one writer), so an array there
    reads as no entries. *)
Definition getBlockedMap (h : Host) (st : Storage) : gmap string bool :=
  match storageGet h STORAGE_KEY st !! STORAGE_KEY with
  | Some (VMap m) => m
  | Some (VList _) => ∅
  | None => ∅
  end.

Definition setBlockedMap (h : Host) (map : gmap string bool) (st : Storage) : Storage :=
  storageSet h {[ STORAGE_KEY := VMap map ]} st.

Definition updateBlockedEntry (h : Host) (urlKey : string) (shouldBlock : bool)
    (st : Storage) : gmap string bool * Storage :=
  let map := getBlockedMap h st in
  let map := if shouldBlock then <[ urlKey := true ]> map else delete urlKey map in
  (map, setBlockedMap h map st).

(** *** blocking.js, lines 39-45 *)

(** [rawUrl || ""] is [rawUrl] for every string. *)
Definition toAbsolute (h : Host) (rawUrl base : string) : string :=
  match URL_href h rawUrl base with
  | Some href => href
  | None => rawUrl
  end.

(** ** The tab's page *)

(** A node of the page's document.  [nid] is the node's identity: two
    references are the same node when their [nid] agree.  [tagName] is
    [None] for a node that is not an element (text, comment); [src] is the
    [src] property, the empty string when the element has none. *)
Inductive node :=
| Node (nid : nat) (tagName : option string) (src : string) (children : list node).

Definition nid (n : node) : nat := match n with Node i _ _ _ => i end.
Definition tagName (n : node) : option string := match n with Node _ t _ _ => t end.
Definition src (n : node) : string := match n with Node _ _ s _ => s end.

(** The node and its descendants, in document order. *)
Fixpoint subtree (n : node) : list node :=
  match n with
  | Node _ _ _ cs => n :: concat (map subtree cs)
  end.

(** Every node of a forest, in document order. *)
Definition nodes (doc : list node) : list node := concat (map subtree doc).

(** [n.tagName && n.tagName.toLowerCase() === 'script']. *)
Definition is_script (n : node) : bool :=
  match tagName n with
  | Some t => String.eqb (toLowerCase t) "script"
  | None => false
  end.

(** [document.getElementsByTagName("script")], also [document.scripts]. *)
Definition script_elements (doc : list node) : list node := filter is_script (nodes doc).

(** One copy of [n] without the node [i] and what hangs under it. *)
Fixpoint remove_in (i : nat) (n : node) : list node :=
  match n with
  | Node j t s cs =>
      if Nat.eqb i j then []
      else [Node j t s (concat (map (remove_in i) cs))]
  end.

(** [n.remove()] for the node [i]: it leaves the document with its
    subtree; a node that is not in the document changes nothing. *)
Definition remove_node (i : nat) (doc : list node) : list node :=
  concat (map (remove_in i) doc).

(** A page: its location, the children of its document, the blocked sets
    of the mutation observers installed so far, and whether the browser
    lets an extension inject into it. *)
Record Page := {
  location_href : string;
  document : list node;
  observers : list (list string);
  injectable : bool
}.

Record MutationRecord := { addedNodes : list node }.

(** *** blocking.js, lines 54-89: the probe that runs inside the page *)

Section Probe.
Variable h : Host.
Variable href : string.

(** [new URL(u, location.href).href], [u || ""] when that throws. *)
Definition abs (u : string) : string :=
  match URL_href h u href with
  | Some x => x
  | None => u
  end.

Definition blockedSet (blockedUrls : list string) : list string := map abs blockedUrls.

(** [s.src && blockedSet.has(abs(s.src))]. *)
Definition blocked_src (bset : list string) (s : node) : bool :=
  truthy_str (src s) && has bset (abs (src s)).

(** [scripts.forEach(s => { if (...) s.remove(); })] over the snapshot
    [scripts]. *)
Definition remove_existing (bset : list string) (doc : list node) : list node :=
  fold_left (fun d s => if blocked_src bset s then remove_node (nid s) d else d)
            (script_elements doc) doc.

(** The observer's callback, lines 73-84. *)
Definition observer_callback (bset : list string) (mutations : list MutationRecord)
    (doc : list node) : list node :=
  fold_left
    (fun d m =>
       fold_left
         (fun d n =>
            if is_script n then
              let src := src n in
              if truthy_str src && has bset (abs src) then remove_node (nid n) d else d
            else d)
         (addedNodes m) d)
    mutations doc.
End Probe.

Definition probe (h : Host) (blockedUrls : list string) (p : Page) : Page :=
  let bset := blockedSet h (location_href p) blockedUrls in
  {| location_href := location_href p;
     document := remove_existing h (location_href p) bset (document p);
     observers := observers p ++ [bset];
     injectable := injectable p |}.

(** The page inserts [n] (with whatever hangs under it) as a child of its
    document: one mutation record whose [addedNodes] is [n] alone reaches
    every installed observer. *)
Definition page_inserts (h : Host) (n : node) (p : Page) : Page :=
  let doc := document p ++ [n] in
  {| location_href := location_href p;
     document :=
       fold_left
         (fun d bset =>
            observer_callback h (location_href p) bset [ {| addedNodes := [n] |} ] d)
         (observers p) doc;
     observers := observers p;
     injectable := injectable p |}.

(** The probe of the popup scripts:
    [Array.from(document.scripts).map(s => s.src).filter(Boolean)]. *)
Definition list_scripts (p : Page) : list string :=
  filter truthy_str (map src (script_elements (document p))).

(** ** The popup and the world *)

(** A row of the popup's list.  [RowNodes] is a row built node by node:
    [span.title], [span.textContent] and a checkbox.  [RowMarkup] is a row
    whose content was assigned through [li.innerHTML], so the string went
    through the HTML parser. *)
Inductive Row :=
| RowNodes (title text : string) (checked : bool)
| RowMarkup (html : string) (checked : bool).

(** The element [#script-list]: the markup last assigned to its
    [innerHTML], and the rows appended since. *)
Record ListEl := { list_html : string; list_rows : list Row }.

(** The function handed to [chrome.scripting.executeScript]. *)
Inductive Probe :=
| ListScripts
| RemoveScripts (urls : list string).

(** What a run leaves behind, in the order it happened: the calls to the
    host, the listeners attached, the console lines, and three marks, for
    the list being filled ([Rendered]), for the checkboxes being set from
    the stored record ([Reconciled]) and for the change handler being
    entered ([ChangeHandled]). *)
Inductive Event :=
| CallTabsQuery
| CallExecuteScript (tabId : option Z) (f : Probe)
| CallReload (tabId : option Z)
| CallStorageGet (key : string)
| CallStorageSet (key : string)
| AddListener (target type : string)
| Rendered
| Reconciled
| ChangeHandled (row : nat)
| ConsoleLog (msg : string)
| ConsoleWarn (msg : string)
| ConsoleError (msg : string).

Record World := {
  store : Storage;
  page : Page;
  script_list : ListEl;
  events : list Event
}.

Definition emit (e : Event) (w : World) : World :=
  {| store := store w; page := page w; script_list := script_list w;
     events := events w ++ [e] |}.

Definition set_store (st : Storage) (w : World) : World :=
  {| store := st; page := page w; script_list := script_list w; events := events w |}.

Definition set_page (p : Page) (w : World) : World :=
  {| store := store w; page := p; script_list := script_list w; events := events w |}.

Definition set_list (l : ListEl) (w : World) : World :=
  {| store := store w; page := page w; script_list := l; events := events w |}.

(** [list.innerHTML = html]: the children are replaced by the parsed
    markup. *)
Definition set_innerHTML (html : string) (w : World) : World :=
  set_list {| list_html := html; list_rows := [] |} w.

(** [list.appendChild(li)]. *)
Definition appendChild (r : Row) (w : World) : World :=
  set_list {| list_html := list_html (script_list w);
              list_rows := list_rows (script_list w) ++ [r] |} w.

(** Whether the browser runs an injected function in the tab [tabId]: the
    id is the active tab's, and the page allows injection. *)
Definition can_inject (h : Host) (tabId : option Z) (w : World) : bool :=
  injectable (page w) &&
  match active_tab h, tabId with
  | Some t, Some id => bool_decide (tab_id t = Some id)
  | _, _ => false
  end.

(** *** blocking.js, lines 48-96 *)

(** [urls] is [None] when the argument is missing or null. *)
Definition removeScriptsInTab (h : Host) (tabId : option Z) (urls : option (list string))
    (w : World) : World :=
  match urls with
  | None => w
  | Some urls =>
      if negb (truthy_id tabId) || (length urls =? 0)%nat then w
      else
        let w := emit (CallExecuteScript tabId (RemoveScripts urls)) w in
        if can_inject h tabId w then set_page (probe h urls (page w)) w
        else emit (ConsoleWarn "removeScriptsInTab error:") w
  end.

(** ** Reading a row back *)

Definition row_checked (r : Row) : bool :=
  match r with
  | RowNodes _ _ c => c
  | RowMarkup _ c => c
  end.

Definition set_checked (c : bool) (r : Row) : Row :=
  match r with
  | RowNodes t x _ => RowNodes t x c
  | RowMarkup m _ => RowMarkup m c
  end.

Fixpoint upto_dquote (s : string) : string :=
  match s with
  | EmptyString => EmptyString
  | String c r => if Ascii.eqb c "034"%char then EmptyString else String c (upto_dquote r)
  end.

Fixpoint drop_str (n : nat) (s : string) : string :=
  match n, s with
  | O, _ => s
  | S n', String _ r => drop_str n' r
  | S _, EmptyString => EmptyString
  end.

(** What follows the first occurrence of [p] in [s]. *)
Fixpoint after_first (p s : string) : option string :=
  if starts_with p s then Some (drop_str (String.length p) s)
  else match s with
       | EmptyString => None
       | String _ r => after_first p r
       end.

(** The host's HTML parser on a double-quoted attribute: the value of the
    first [title="..."] of [html] runs from the opening quote to the next
    double quote (character references are left as written). *)
Definition parsed_title (html : string) : option string :=
  option_map upto_dquote (after_first ("title=" +:+ dquote) html).

(** [span.getAttribute("title")] of the row's [span[title]], [None] when
    the row has no such span. *)
Definition row_title (r : Row) : option string :=
  match r with
  | RowNodes t _ _ => Some t
  | RowMarkup m _ => parsed_title m
  end.

(** ** blocking.js: the checkbox handler and [init] *)

(** [(tabs && tabs[0] && tabs[0].url) ? tabs[0].url : location.href]. *)
Definition base_url (h : Host) : string :=
  match active_tab h with
  | Some t =>
      match tab_url t with
      | Some u => if truthy_str u then u else popup_href h
      | None => popup_href h
      end
  | None => popup_href h
  end.

(** Lines 124-142, for a checkbox that sits in the row [r].  The rows of
    the popup hold no element of class [src], so [srcDiv] is null and an
    empty [raw] stays empty. *)
Definition getUrlFromCheckbox (h : Host) (r : Row) : string :=
  let raw := default "" (row_title r) in
  toAbsolute h raw (base_url h).

(** Lines 145-173, for a change event whose target is the checkbox of the
    row [i]; an event from anything else returns at once. *)
Definition onCheckboxChange (h : Host) (i : nat) (w : World) : World :=
  match list_rows (script_list w) !! i with
  | None => w
  | Some r =>
      let w := emit CallTabsQuery w in
      let urlKey := getUrlFromCheckbox h r in
      if negb (truthy_str urlKey) then w
      else
        let w := emit (CallStorageGet STORAGE_KEY) w in
        let '(newMap, st) := updateBlockedEntry h urlKey (row_checked r) (store w) in
        let w := set_store st (emit (CallStorageSet STORAGE_KEY) w) in
        let w := emit CallTabsQuery w in
        match active_tab h with
        | Some tab =>
            match tab_id tab with
            | Some _ =>
                if row_checked r then removeScriptsInTab h (tab_id tab) (Some [urlKey]) w
                else w
            | None => w
            end
        | None => w
        end
  end.

(** Lines 198-210: one checkbox of the reconciliation. *)
Definition reconcile_row (h : Host) (blocked : gmap string bool) (r : Row) : Row :=
  let raw := default "" (row_title r) in
  let abs := toAbsolute h raw (base_url h) in
  if truthy_str abs && bool_decide (blocked !! abs = Some true)
  then set_checked true r else r.

(** Where [init] stands between two awaits. *)
Inductive InitPc :=
| I_start
| I_await_get
| I_await_query (blocked : gmap string bool)
| I_done.

(** Lines 176-215, one run-to-completion segment at a time, in a popup
    that has its [#script-list].  The first segment is the synchronous
    part: the listener, then the call behind [getBlockedMap()].  The
    checkboxes found after the first await are the rows of the list at
    that moment; the list is filled once, so they are still its rows when
    the last segment runs. *)
Definition init_step (h : Host) (pc : InitPc) (w : World) : InitPc * World :=
  match pc with
  | I_start =>
      let w := emit (AddListener "script-list" "change") w in
      (I_await_get, emit (CallStorageGet STORAGE_KEY) w)
  | I_await_get =>
      let blocked := getBlockedMap h (store w) in
      if (length (list_rows (script_list w)) =? 0)%nat then (I_done, w)
      else (I_await_query blocked, emit CallTabsQuery w)
  | I_await_query blocked =>
      let rows := map (reconcile_row h blocked) (list_rows (script_list w)) in
      (I_done,
       emit Reconciled
         (set_list {| list_html := list_html (script_list w); list_rows := rows |} w))
  | I_done => (I_done, w)
  end.

(** ** script.js *)

Definition nl : string := String "010"%char EmptyString.

(** The template literal of lines 25-28 and 67-70; [inner] and [outer] are
    the indentations of the two revisions. *)
Definition row_template (inner outer src : string) : string :=
  nl +:+ inner +:+ "<span title=" +:+ dquote +:+ src +:+ dquote +:+ ">"
     +:+ split_pop src +:+ "</span>" +:+ nl
     +:+ inner +:+ "<input type=" +:+ dquote +:+ "checkbox" +:+ dquote +:+ " />" +:+ nl
     +:+ outer.

Definition row_v1 (src : string) : Row :=
  RowMarkup (row_template "                    " "                " src) false.

Definition row_v2 (src : string) : Row :=
  RowMarkup (row_template "                " "            " src) false.

(** Lines 28-42 of the popup script with the save button. *)
Definition row_v3 (src : string) : Row :=
  let name := split_pop src in
  RowNodes src (if truthy_str name then name else src) false.

Definition NO_TAB : string := "<li>No active tab found.</li>".
Definition NO_SCRIPTS : string := "<li>No external JS files found.</li>".

(** [list.innerHTML = ""; if (scripts.length === 0) {...; return;}
    scripts.forEach(...)] with the row builder [row]. *)
Definition render (row : string -> Row) (scripts : list string) (w : World) : World :=
  let w := set_innerHTML "" w in
  if (length scripts =? 0)%nat then set_innerHTML NO_SCRIPTS w
  else emit Rendered (fold_left (fun w src => appendChild (row src) w) scripts w).

(** What [executeScript] with [ListScripts] resolves to: [None] when the
    injection is refused. *)
Definition inject_list (h : Host) (tabId : option Z) (w : World) : option (list string) :=
  if can_inject h tabId w then Some (list_scripts (page w)) else None.

(** *** First revision, lines 1-37: callbacks, no guard, no [try] *)

Inductive Pc1 :=
| P1_start
| P1_await_query
| P1_await_inject (tab : Tab)
| P1_done.

(** [throws] says how the browser answers a call whose target has no tab
    id: it raises at the call ([true]) or reports to the callback
    ([false]).  Reading [tab.id] of a missing tab raises. *)
Definition script1_step (h : Host) (throws : bool) (pc : Pc1) (w : World) : Pc1 * World :=
  match pc with
  | P1_start => (P1_await_query, emit CallTabsQuery w)
  | P1_await_query =>
      match active_tab h with
      | None => (P1_done, w)
      | Some tab =>
          let w := emit (CallExecuteScript (tab_id tab) ListScripts) w in
          match tab_id tab with
          | None => if throws then (P1_done, w)
                    else (P1_await_inject tab, emit (AddListener "refresh-btn" "click") w)
          | Some _ => (P1_await_inject tab, emit (AddListener "refresh-btn" "click") w)
          end
      end
  | P1_await_inject tab =>
      let scripts := default [] (inject_list h (tab_id tab) w) in
      (P1_done, render row_v1 scripts w)
  | P1_done => (P1_done, w)
  end.

(** *** Second revision, lines 38-82, and the popup script with the save
    button: [await], the tab guard and [try]/[catch] *)

Inductive Pc2 :=
| P2_start
| P2_await_query
| P2_await_inject (id : Z)
| P2_await_restore (id : Z)
| P2_done.

(** [tab?.id] when it is truthy: the guard [if (!tab?.id)] lets through a
    tab whose id is a number other than 0. *)
Definition guarded_id (h : Host) : option Z :=
  match active_tab h with
  | Some tab => if truthy_id (tab_id tab) then tab_id tab else None
  | None => None
  end.

(** [catch (error)]: the message is the browser's. *)
Definition on_error (msg : string) (w : World) : World :=
  set_innerHTML ("<li>Error: " +:+ msg +:+ "</li>") (emit (ConsoleError "Error:") w).

Definition script2_step (h : Host) (errmsg : string) (pc : Pc2) (w : World) : Pc2 * World :=
  match pc with
  | P2_start => (P2_await_query, emit CallTabsQuery w)
  | P2_await_query =>
      match guarded_id h with
      | Some id => (P2_await_inject id, emit (CallExecuteScript (Some id) ListScripts) w)
      | None => (P2_done, set_innerHTML NO_TAB w)
      end
  | P2_await_inject id =>
      match inject_list h (Some id) w with
      | None => (P2_done, on_error errmsg w)
      | Some scripts =>
          let w := render row_v2 scripts w in
          if (length scripts =? 0)%nat then (P2_done, w)
          else (P2_done, emit (AddListener "refresh-btn" "click") w)
      end
  | P2_await_restore _ => (P2_done, w)
  | P2_done => (P2_done, w)
  end.

(** [Number.prototype.toString] on an integer. *)
Definition Number_toString (z : Z) : string := NilZero.string_of_int (Z.to_int z).

(** ["blocked_" + tab.id]. *)
Definition storageKey (id : Z) : string := "blocked_" +:+ Number_toString id.

(** [li.querySelector("span")?.title]: the [title] property of the row's
    first span. *)
Definition span_title (r : Row) : string := default "" (row_title r).

(** Lines 47-60: the callback of [chrome.storage.local.get]. *)
Definition restore (h : Host) (key : string) (w : World) : World :=
  match area_get (get_fails h) key (local (store w)) with
  | None => emit (ConsoleError "Storage get error:") w
  | Some res =>
      let blocked := match res !! key with
                     | Some (VList l) => l
                     | Some (VMap _) => []
                     | None => []
                     end in
      let rows :=
        map (fun r => if truthy_str (span_title r) && has blocked (span_title r)
                      then set_checked true r else r)
            (list_rows (script_list w)) in
      emit (ConsoleLog "Restored")
        (emit Reconciled
           (set_list {| list_html := list_html (script_list w); list_rows := rows |} w))
  end.

Definition script3_step (h : Host) (errmsg : string) (pc : Pc2) (w : World) : Pc2 * World :=
  match pc with
  | P2_start => (P2_await_query, emit CallTabsQuery w)
  | P2_await_query =>
      match guarded_id h with
      | Some id => (P2_await_inject id, emit (CallExecuteScript (Some id) ListScripts) w)
      | None => (P2_done, set_innerHTML NO_TAB w)
      end
  | P2_await_inject id =>
      match inject_list h (Some id) w with
      | None => (P2_done, on_error errmsg w)
      | Some scripts =>
          let w := render row_v3 scripts w in
          if (length scripts =? 0)%nat then (P2_done, w)
          else
            let w := emit (CallStorageGet (storageKey id)) w in
            (P2_await_restore id, emit (AddListener "save-btn" "click") w)
      end
  | P2_await_restore id => (P2_done, restore h (storageKey id) w)
  | P2_done => (P2_done, w)
  end.

(** Lines 63-78: a click on the save button of the popup opened on the tab
    [id]. *)
Definition save_click (h : Host) (id : Z) (w : World) : World :=
  let key := storageKey id in
  let blocked := map span_title (filter (fun r => row_checked r) (list_rows (script_list w))) in
  let st := {| session := session (store w);
               local := area_set (set_fails h) {[ key := VList blocked ]} (local (store w)) |} in
  let w := set_store st (emit (CallStorageSet key) w) in
  let w := emit (CallReload (Some id)) w in
  if set_fails h then emit (ConsoleError "Storage set error:") w
  else emit (ConsoleLog "Saved") w.

(** A handler run alone, from the event to its last segment. *)
Fixpoint run_steps {Pc : Type} (step : Pc -> World -> Pc * World) (n : nat)
    (pc : Pc) (w : World) : Pc * World :=
  match n with
  | O => (pc, w)
  | S n' => let '(pc', w') := step pc w in run_steps step n' pc' w'
  end.

Definition script1 (h : Host) (throws : bool) (w : World) : World :=
  snd (run_steps (script1_step h throws) 3 P1_start w).

Definition script2 (h : Host) (errmsg : string) (w : World) : World :=
  snd (run_steps (script2_step h errmsg) 3 P2_start w).

Definition script3 (h : Host) (errmsg : string) (w : World) : World :=
  snd (run_steps (script3_step h errmsg) 4 P2_start w).

(** ** One popup: script.js (second revision) and blocking.js together *)

(** The popup's event loop runs one task at a time: the next segment of
    the page script, the next segment of [init], or a click of the user on
    the checkbox of a row. *)
Inductive Task :=
| RunScript
| RunInit
| UserToggle (row : nat).

Record Popup := { pc_script : Pc2; pc_init : InitPc; world : World }.

Definition CHANGE_LISTENER : Event := AddListener "script-list" "change".

Definition is_change_listener (e : Event) : bool :=
  match e with
  | AddListener target type => String.eqb target "script-list" && String.eqb type "change"
  | _ => false
  end.

Definition is_rendered (e : Event) : bool :=
  match e with Rendered => true | _ => false end.

Definition is_reconciled (e : Event) : bool :=
  match e with Reconciled => true | _ => false end.

Definition is_handled (e : Event) : bool :=
  match e with ChangeHandled _ => true | _ => false end.

Definition is_inject (e : Event) : bool :=
  match e with CallExecuteScript _ _ => true | _ => false end.

(** The delegated listener of line 181 is on the list. *)
Definition change_listener_attached (w : World) : bool :=
  existsb is_change_listener (events w).

(** The user clicks the checkbox of the row [i]: the box flips, and the
    change event bubbles to the list. *)
Definition toggle_row (i : nat) (w : World) : World :=
  match list_rows (script_list w) !! i with
  | Some r =>
      set_list {| list_html := list_html (script_list w);
                  list_rows := <[ i := set_checked (negb (row_checked r)) r ]>
                                 (list_rows (script_list w)) |} w
  | None => w
  end.

(** One task.  The change handler runs in one piece: it neither fills nor
    reconciles the list, so where its own awaits fall does not change the
    order of the marks. *)
Definition task_step (h : Host) (errmsg : string) (t : Task) (s : Popup) : Popup :=
  match t with
  | RunScript =>
      let '(pc, w) := script2_step h errmsg (pc_script s) (world s) in
      {| pc_script := pc; pc_init := pc_init s; world := w |}
  | RunInit =>
      let '(pc, w) := init_step h (pc_init s) (world s) in
      {| pc_script := pc_script s; pc_init := pc; world := w |}
  | UserToggle i =>
      match list_rows (script_list (world s)) !! i with
      | None => s
      | Some _ =>
          let w := toggle_row i (world s) in
          let w := if change_listener_attached w
                   then onCheckboxChange h i (emit (ChangeHandled i) w)
                   else w in
          {| pc_script := pc_script s; pc_init := pc_init s; world := w |}
      end
  end.

(** A popup that has just been opened: an empty list, nothing logged. *)
Definition popup_open (st : Storage) (p : Page) : World :=
  {| store := st; page := p;
     script_list := {| list_html := ""; list_rows := [] |};
     events := [] |}.

(** The popup from the moment it opens, through the tasks of [sched]. *)
Definition popup_run (h : Host) (errmsg : string) (sched : list Task)
    (st : Storage) (p : Page) : Popup :=
  fold_left (fun s t => task_step h errmsg t s) sched
    {| pc_script := P2_start; pc_init := I_start; world := popup_open st p |}.

(** Two scripts that the popup's markup loads both register for
    [DOMContentLoaded] (or [init] runs as blocking.js is evaluated): the
    first segment of each runs before any host call returns, in the order
    of the two script tags. *)
Definition dom_content_loaded (script_first : bool) : list Task :=
  if script_first then [RunScript; RunInit] else [RunInit; RunScript].

(** In [l], every event that [b] selects comes after one that [a]
    selects. *)
Definition precedes (a b : Event -> bool) (l : list Event) : Prop :=
  forall pre x post, l = pre ++ x :: post -> b x = true -> existsb a pre = true.

(** [w'] has the events of [w] and after them only events that [ok]
    lets through. *)
Definition only (ok : Event -> bool) (w w' : World) : Prop :=
  exists new, events w' = events w ++ new /\ forallb ok new = true.

(** Whether the first event that [a] or [b] selects is one of [a]. *)
Fixpoint first_before (a b : Event -> bool) (l : list Event) : bool :=
  match l with
  | [] => false
  | x :: r => if a x then true
              else if b x then false
              else first_before a b r
  end.

(** ** Absolute URLs *)

Definition is_alpha (c : ascii) : bool :=
  let n := nat_of_ascii c in
  ((65 <=? n)%nat && (n <=? 90)%nat) || ((97 <=? n)%nat && (n <=? 122)%nat).

Definition is_scheme_char (c : ascii) : bool :=
  let n := nat_of_ascii c in
  is_alpha c || ((48 <=? n)%nat && (n <=? 57)%nat)
  || Ascii.eqb c "+"%char || Ascii.eqb c "-"%char || Ascii.eqb c "."%char.

Fixpoint scheme_rest (s : string) : bool :=
  match s with
  | EmptyString => false
  | String c r => if Ascii.eqb c ":"%char then true else is_scheme_char c && scheme_rest r
  end.

(** An absolute URL starts with its scheme: a letter, then letters,
    digits, [+], [-] or [.], then a colon. *)
Definition has_scheme (s : string) : bool :=
  match s with
  | EmptyString => false
  | String c r => is_alpha c && scheme_rest r
  end.

(** Every URL the constructor returns is absolute. *)
Definition href_absolute (h : Host) : Prop :=
  forall raw base href, URL_href h raw base = Some href -> has_scheme href = true.

(** A key is a resolved URL when it is the [href] of some URL object. *)
Definition resolved (h : Host) (key : string) : Prop :=
  exists raw base, URL_href h raw base = Some key.

(** ** Shapes of the stored records *)

Definition all_true (m : gmap string bool) : Prop :=
  forall u b, m !! u = Some b -> b = true.

(** The record a claim of uniform layout asks for: an object from URL to
    [true]. *)
Definition is_blocked_map (v : JVal) : Prop :=
  exists m, v = VMap m /\ all_true m.

(** What the two writers leave: an object of [true] under the global key, an
    array of URLs under a per-tab key. *)
Definition record_ok (k : string) (v : JVal) : Prop :=
  (k = STORAGE_KEY /\ is_blocked_map v) \/
  (exists id l, k = storageKey id /\ v = VList l).

Definition storage_ok (st : Storage) : Prop :=
  (forall k v, session st !! k = Some v -> record_ok k v) /\
  (forall k v, local st !! k = Some v -> record_ok k v).

(** What the user does in the popup. *)
Inductive Action :=
| Toggle (row : nat)
| Save (id : Z).

(** A toggle flips the box and runs the handler of blocking.js; a save runs
    the click handler of the popup opened on tab [id]. *)
Definition act (h : Host) (w : World) (a : Action) : World :=
  match a with
  | Toggle i => onCheckboxChange h i (toggle_row i w)
  | Save id => save_click h id w
  end.

Definition empty_storage : Storage := {| session := ∅; local := ∅ |}.

(** ** Counting what the list shows *)

(** Rows of the list: the [<li>] of the markup assigned to the list, and
    the [li] elements appended to it. *)
Definition row_count (l : ListEl) : nat :=
  occurrences "<li" (list_html l) + length (list_rows l).

(** Checkboxes of a row: the one [input] of a row built node by node; for
    a row parsed from markup, the [<input] tags of that markup, which
    depend on the URL it was built from. *)
Definition row_checkboxes (r : Row) : nat :=
  match r with
  | RowNodes _ _ _ => 1
  | RowMarkup html _ => occurrences "<input" html
  end.

(** Checkboxes of the list: those of the markup assigned to the list and
    those of the rows appended to it. *)
Definition checkbox_count (l : ListEl) : nat :=
  occurrences "<input" (list_html l) + list_sum (map row_checkboxes (list_rows l)).

(** The number of different URLs in a list. *)
Definition distinct_count (l : list string) : nat := length (remove_dups l).

(** ** A host and pages for the examples *)

Fixpoint take_until_slash (s : string) : string :=
  match s with
  | EmptyString => EmptyString
  | String c r => if Ascii.eqb c "/"%char then EmptyString else String c (take_until_slash r)
  end.

Fixpoint take_until_colon (s : string) : string :=
  match s with
  | EmptyString => EmptyString
  | String c r => if Ascii.eqb c ":"%char then EmptyString else String c (take_until_colon r)
  end.

(** [scheme://host] of a base that has both. *)
Definition origin_of (base : string) : option string :=
  match after_first "://" base with
  | Some rest =>
      let host := take_until_slash rest in
      if truthy_str host then Some (take_until_colon base +:+ "://" +:+ host) else None
  | None => None
  end.

(** A URL constructor for the examples.  On the strings the examples hand
    it, it answers as the URL Standard does: a serialised absolute URL
    comes back as it is, a path that starts with one slash replaces the
    path of the base, and a string that starts with two slashes and names
    no host is refused.  It refuses every other string. *)
Definition example_URL_href (raw base : string) : option string :=
  let candidate :=
    if has_scheme raw then Some raw
    else if starts_with "//" raw then
      (if truthy_str (take_until_slash (drop_str 2 raw))
       then Some (take_until_colon base +:+ ":" +:+ raw) else None)
    else if starts_with "/" raw then option_map (fun o => o +:+ raw) (origin_of base)
    else None in
  match candidate with
  | Some c => if has_scheme c then Some c else None
  | None => None
  end.

Definition example_tab (id : option Z) : Tab :=
  {| tab_id := id; tab_url := Some "https://example.com/page" |}.

Definition example_host (id : option Z) (getf setf : bool) : Host :=
  {| URL_href := example_URL_href;
     active_tab := Some (example_tab id);
     popup_href := "chrome-extension://abcdefgh/popup.html";
     has_session := true;
     get_fails := getf;
     set_fails := setf;
     remove_fails := false |}.

Definition script_node (i : nat) (u : string) : node := Node i (Some "SCRIPT") u [].

Definition example_page (doc : list node) : Page :=
  {| location_href := "https://example.com/page";
     document := doc;
     observers := [];
     injectable := true |}.

Definition X_JS : string := "https://cdn.a/x.js".
Definition Y_JS : string := "https://cdn.b/y.js".

(** The page of the spec's scenario: two external scripts and an inline
    one. *)
Definition two_scripts : list node :=
  [Node 1 (Some "HEAD") "" [script_node 2 X_JS];
   Node 3 (Some "BODY") "" [Node 4 (Some "DIV") "" [script_node 5 Y_JS];
                            Node 6 (Some "SCRIPT") "" []]].

(** A [div] that carries a script, as a page builds it before it inserts
    the [div]. *)
Definition wrapped_script (i j : nat) (u : string) : node :=
  Node i (Some "DIV") "" [script_node j u].

(** A script URL that a page can carry: the path of a [data:] URL keeps
    its double quote and its angle brackets when the URL is serialised. *)
Definition QUOTED_SRC : string :=
  "data:text/javascript," +:+ dquote +:+ "><svg/onload=alert(1)>".

Definition example_world (st : Storage) (doc : list node) (rows : list Row) : World :=
  {| store := st; page := example_page doc;
     script_list := {| list_html := ""; list_rows := rows |};
     events := [] |}.

(** ** Pruning a document *)

(** [doc] without the nodes that [K] selects and what hangs under them. *)
Fixpoint prune_in (K : node -> bool) (n : node) : list node :=
  match n with
  | Node j t s cs =>
      if K n then [] else [Node j t s (concat (map (prune_in K) cs))]
  end.

Definition prune (K : node -> bool) (doc : list node) : list node :=
  concat (map (prune_in K) doc).

(** A selection that looks at the identity, the tag and the source of a
    node only. *)
Definition by_label (K : node -> bool) : Prop :=
  forall i t s cs cs', K (Node i t s cs) = K (Node i t s cs').

(** The selection that the loop of lines 67-71 has applied after it has
    gone through the scripts [l]. *)
Definition removed_by (B : node -> bool) (l : list node) (n : node) : bool :=
  existsb (fun s => B s && Nat.eqb (nid s) (nid n)) l.

(** ** Reading the claims *)

(** The markup a row was parsed from, when it was. *)
Definition row_markup (r : Row) : option string :=
  match r with
  | RowMarkup m _ => Some m
  | RowNodes _ _ _ => None
  end.

(** One layout for every record, in both areas: an object from URL to
    [true]. *)
Definition uniform_layout (st : Storage) : Prop :=
  forall k v, session st !! k = Some v \/ local st !! k = Some v -> is_blocked_map v.

(** Events that neither fill the list, nor reconcile it, nor handle a
    change. *)
Definition quiet (e : Event) : bool :=
  negb (is_rendered e || is_reconciled e || is_handled e).

(** The events that the checkbox handler of blocking.js can leave behind:
    its host calls, and the warning of [removeScriptsInTab]. *)
Definition handler_event (e : Event) : bool :=
  match e with
  | CallTabsQuery | CallStorageGet _ | CallStorageSet _
  | CallExecuteScript _ _ | ConsoleWarn _ => true
  | _ => false
  end.

(** What holds of a popup after any number of tasks. *)
Definition popup_inv (s : Popup) : Prop :=
  let evs := events (world s) in
  (pc_init s <> I_start -> existsb is_change_listener evs = true) /\
  (list_rows (script_list (world s)) <> [] -> existsb is_rendered evs = true) /\
  precedes is_change_listener is_reconciled evs /\
  precedes is_rendered is_handled evs /\
  precedes is_change_listener is_handled evs.

(** ** Further readings of the popup *)

(** [span.textContent] of a row built node by node. *)
Definition row_text (r : Row) : option string :=
  match r with
  | RowNodes _ x _ => Some x
  | RowMarkup _ _ => None
  end.

(** A page of the browser itself, which no extension may inject into. *)
Definition restricted_page (doc : list node) : Page :=
  {| location_href := "chrome://settings/";
     document := doc;
     observers := [];
     injectable := false |}.

(** Whether a string holds a slash. *)
Fixpoint has_slash (s : string) : bool :=
  match s with
  | EmptyString => false
  | String c r => Ascii.eqb c "/"%char || has_slash r
  end.

(** What a step of a popup script leaves alone: the storage and the
    tab's page. *)
Definition same_store_and_page (w w' : World) : Prop :=
  store w' = store w /\ page w' = page w.

(** [r'] is [r], or [r] with its box checked. *)
Definition checked_at_most (r r' : Row) : Prop :=
  (r' = r \/ r' = set_checked true r) /\
  row_title r' = row_title r /\
  (row_checked r = true -> row_checked r' = true).

(** [r'] is [r] after a reconciliation that checks the rows [found]
    selects: nothing but the box can differ, and the box is checked
    afterwards exactly when it was checked before or the row was found. *)
Definition reconciled_from (found : Row -> bool) (r r' : Row) : Prop :=
  checked_at_most r r' /\ row_checked r' = row_checked r || found r.

(** * Properties *)

(** ** The Block Store *)

Lemma store_area_with (h : Host) (a : gmap string JVal) (st : Storage) :
  store_area h (with_store_area h a st) = a.
Proof. unfold store_area, with_store_area. destruct (has_session h); reflexivity. Qed.

Lemma storageGet_ok (h : Host) (key : string) (st : Storage) :
  get_fails h = false ->
  storageGet h key st !! key = store_area h st !! key.
Proof.
  intros Hg. unfold storageGet, area_get. rewrite Hg.
  destruct (store_area h st !! key) as [v|] eqn:E.
  - apply lookup_singleton_eq.
  - apply lookup_empty.
Qed.

Lemma getBlockedMap_set (h : Host) (m : gmap string bool) (st : Storage) :
  get_fails h = false -> set_fails h = false ->
  getBlockedMap h (setBlockedMap h m st) = m.
Proof.
  intros Hg Hs. unfold getBlockedMap.
  rewrite storageGet_ok by assumption.
  unfold setBlockedMap, storageSet, area_set. rewrite Hs, store_area_with.
  rewrite (lookup_union_Some_l _ _ _ (VMap m)) by apply lookup_singleton_eq.
  reflexivity.
Qed.

Lemma setBlockedMap_other (h : Host) (m : gmap string bool) (st : Storage) (k : string) :
  k <> STORAGE_KEY ->
  store_area h (setBlockedMap h m st) !! k = store_area h st !! k.
Proof.
  intros Hk. unfold setBlockedMap, storageSet, area_set.
  rewrite store_area_with. destruct (set_fails h); [reflexivity|].
  rewrite lookup_union_r; [reflexivity|].
  apply lookup_singleton_ne. congruence.
Qed.

(** C6.  With a storage that answers, for a URL [u] that the Blocked Map
    does not hold, [updateBlockedEntry(u, true)] followed by
    [updateBlockedEntry(u, false)] gives back the map it started from: the
    second call returns it, the store holds it, [u] is absent again, and no
    other record of the area has changed.  In between, [u] maps to [true]. *)
Theorem updateBlockedEntry_on_then_off (h : Host) (st : Storage) (u : string) :
  get_fails h = false -> set_fails h = false ->
  getBlockedMap h st !! u = None ->
  let on := updateBlockedEntry h u true st in
  let off := updateBlockedEntry h u false (snd on) in
  fst on !! u = Some true /\
  fst off = getBlockedMap h st /\
  getBlockedMap h (snd off) = getBlockedMap h st /\
  fst off !! u = None /\
  (forall k, k <> STORAGE_KEY -> store_area h (snd off) !! k = store_area h st !! k).
Proof.
  intros Hg Hs Hu. cbn zeta. unfold updateBlockedEntry. cbn [fst snd].
  rewrite !getBlockedMap_set by assumption.
  rewrite delete_insert_eq, delete_id by assumption.
  repeat split; try assumption.
  - apply lookup_insert_eq.
  - intros k Hk. rewrite !setBlockedMap_other by assumption. reflexivity.
Qed.

Lemma updateBlockedEntry_on_then_off_witness :
  let h := example_host (Some 7%Z) false false in
  let st := {| session := {[ STORAGE_KEY := VMap {[ Y_JS := true ]} ]}; local := ∅ |} in
  getBlockedMap h st !! X_JS = None /\
  fst (updateBlockedEntry h X_JS false (snd (updateBlockedEntry h X_JS true st)))
  = getBlockedMap h st.
Proof.
  cbn zeta. split; [reflexivity|].
  apply (updateBlockedEntry_on_then_off
           (example_host (Some 7%Z) false false)
           {| session := {[ STORAGE_KEY := VMap {[ Y_JS := true ]} ]}; local := ∅ |}
           X_JS); reflexivity.
Defined.

(** ** The Page Mutator's guard *)

(** C10.  When the tab id is falsy, or the URL list is missing or empty,
    [removeScriptsInTab] returns the world it was given: no call to
    [executeScript] is recorded, nothing is logged, and the page, with its
    document and its observers, is the same. *)
Theorem removeScriptsInTab_guard (h : Host) (tabId : option Z) (urls : option (list string))
    (w : World) :
  truthy_id tabId = false \/ urls = None \/ urls = Some [] ->
  removeScriptsInTab h tabId urls w = w.
Proof.
  intros [Hid | [Hu | Hu]]; unfold removeScriptsInTab.
  - destruct urls as [l|]; [|reflexivity]. rewrite Hid. reflexivity.
  - rewrite Hu. reflexivity.
  - rewrite Hu. cbn. rewrite orb_true_r. reflexivity.
Qed.

Lemma removeScriptsInTab_guard_witness :
  let h := example_host (Some 7%Z) false false in
  let w := example_world empty_storage two_scripts [] in
  truthy_id (Some 0%Z) = false /\
  removeScriptsInTab h (Some 0%Z) (Some [X_JS]) w = w /\
  removeScriptsInTab h None (Some [X_JS]) w = w /\
  removeScriptsInTab h (Some 7%Z) None w = w /\
  removeScriptsInTab h (Some 7%Z) (Some []) w = w.
Proof.
  cbn zeta. split; [reflexivity|].
  split; [apply removeScriptsInTab_guard; left; reflexivity|].
  split; [apply removeScriptsInTab_guard; left; reflexivity|].
  split; [apply removeScriptsInTab_guard; right; left; reflexivity|].
  apply removeScriptsInTab_guard; right; right; reflexivity.
Defined.

(** ** The Page Mutator's probe *)

Lemma node_forall_ind (P : node -> Prop) :
  (forall i t s cs, Forall P cs -> P (Node i t s cs)) ->
  forall n, P n.
Proof.
  intros step. fix IH 1. intros [i t s cs]. apply step.
  induction cs as [|c cs IHcs]; constructor; [apply IH | exact IHcs].
Qed.

Lemma prune_cons (K : node -> bool) (n : node) (doc : list node) :
  prune K (n :: doc) = prune_in K n ++ prune K doc.
Proof. reflexivity. Qed.

Lemma prune_app (K : node -> bool) (a b : list node) :
  prune K (a ++ b) = prune K a ++ prune K b.
Proof. unfold prune. rewrite map_app, concat_app. reflexivity. Qed.

Lemma remove_node_prune (i : nat) (doc : list node) :
  remove_node i doc = prune (fun n => Nat.eqb i (nid n)) doc.
Proof.
  unfold remove_node, prune. f_equal. apply map_ext_in. intros n _.
  induction n as [j t s cs IH] using node_forall_ind. cbn.
  destruct (Nat.eqb i j); [reflexivity|]. do 2 f_equal. f_equal.
  apply map_ext_in. intros c Hc. rewrite Forall_forall in IH. apply IH.
  apply list_elem_of_In. exact Hc.
Qed.

Lemma prune_prune (K1 K2 : node -> bool) (doc : list node) :
  by_label K2 ->
  prune K2 (prune K1 doc) = prune (fun n => K1 n || K2 n) doc.
Proof.
  intros L2.
  assert (one : forall n, prune K2 (prune_in K1 n) = prune_in (fun n => K1 n || K2 n) n).
  { induction n as [j t s cs IH] using node_forall_ind.
    cbn [prune_in]. destruct (K1 (Node j t s cs)) eqn:E1; [reflexivity|].
    cbn [orb]. unfold prune at 1. cbn [map concat prune_in]. rewrite app_nil_r.
    rewrite (L2 j t s _ cs). destruct (K2 (Node j t s cs)); [reflexivity|].
    do 2 f_equal. clear E1.
    induction cs as [|c cs IHcs]; [reflexivity|].
    inversion IH as [|? ? Hc Hcs]; subst.
    cbn [map concat]. rewrite map_app, concat_app.
    f_equal; [exact Hc | apply IHcs; exact Hcs]. }
  induction doc as [|n doc IH]; [reflexivity|].
  rewrite !prune_cons, prune_app, one, IH. reflexivity.
Qed.

Lemma prune_ext (K K' : node -> bool) (doc : list node) :
  (forall n, In n (nodes doc) -> K n = K' n) ->
  prune K doc = prune K' doc.
Proof.
  assert (one : forall n, (forall m, In m (subtree n) -> K m = K' m) ->
                          prune_in K n = prune_in K' n).
  { induction n as [j t s cs IH] using node_forall_ind. intros H.
    cbn [prune_in]. rewrite (H (Node j t s cs)) by (left; reflexivity).
    destruct (K' (Node j t s cs)); [reflexivity|]. do 2 f_equal. f_equal.
    apply map_ext_in. intros c Hc. rewrite Forall_forall in IH.
    apply IH; [apply list_elem_of_In; exact Hc|].
    intros m Hm. apply H. right. apply in_concat. exists (subtree c).
    split; [apply in_map; exact Hc | exact Hm]. }
  intros H. unfold prune. f_equal. apply map_ext_in. intros n Hn. apply one.
  intros m Hm. apply H. unfold nodes. apply in_concat. exists (subtree n).
  split; [apply in_map; exact Hn | exact Hm].
Qed.

Lemma prune_none (K : node -> bool) (doc : list node) :
  (forall n, In n (nodes doc) -> K n = false) -> prune K doc = doc.
Proof.
  assert (one : forall n, (forall m, In m (subtree n) -> K m = false) -> prune_in K n = [n]).
  { induction n as [j t s cs IH] using node_forall_ind. intros H.
    cbn [prune_in]. rewrite (H (Node j t s cs)) by (left; reflexivity).
    do 2 f_equal.
    assert (H' : forall m, In m (concat (map subtree cs)) -> K m = false).
    { intros m Hm. apply H. right. exact Hm. }
    clear H.
    induction cs as [|c cs IHcs]; [reflexivity|].
    inversion IH as [|? ? Hc Hcs]; subst. cbn [map concat].
    assert (Hhead : prune_in K c = [c]).
    { apply Hc. intros m Hm. apply H'. cbn [map concat].
      apply in_or_app. left. exact Hm. }
    assert (Htail : concat (map (prune_in K) cs) = cs).
    { apply IHcs; [exact Hcs|].
      intros m Hm. apply H'. cbn [map concat]. apply in_or_app. right. exact Hm. }
    rewrite Hhead, Htail. reflexivity. }
  induction doc as [|n doc IH]; intros H; [reflexivity|].
  rewrite prune_cons, one, IH; [reflexivity| |];
    intros m Hm; apply H; unfold nodes; cbn [map concat]; apply in_or_app;
    [right | left]; exact Hm.
Qed.

Lemma by_label_nid (i : nat) : by_label (fun n => Nat.eqb i (nid n)).
Proof. intros j t s cs cs'. reflexivity. Qed.

Lemma by_label_blocked (h : Host) (href : string) (bset : list string) :
  by_label (fun n => is_script n && blocked_src h href bset n).
Proof. intros j t s cs cs'. reflexivity. Qed.

Lemma fold_remove_prune (B : node -> bool) (l : list node) :
  forall (K : node -> bool) (doc : list node),
    fold_left (fun d s => if B s then remove_node (nid s) d else d) l (prune K doc)
    = prune (fun n => K n || removed_by B l n) doc.
Proof.
  induction l as [|s l IH]; intros K doc; cbn [fold_left].
  - apply prune_ext. intros n _. cbn. rewrite orb_false_r. reflexivity.
  - destruct (B s) eqn:Bs.
    + rewrite remove_node_prune, prune_prune by apply by_label_nid.
      rewrite IH. apply prune_ext. intros n _. cbn [removed_by existsb].
      rewrite Bs. cbn [andb]. rewrite orb_assoc. reflexivity.
    + rewrite IH. apply prune_ext. intros n _. cbn [removed_by existsb].
      rewrite Bs. reflexivity.
Qed.

Lemma NoDup_map_eq {A B : Type} (f : A -> B) (l : list A) (x y : A) :
  NoDup (map f l) -> In x l -> In y l -> f x = f y -> x = y.
Proof.
  induction l as [|a l IH]; intros Hnd Hx Hy E; [destruct Hx|].
  cbn in Hnd. apply NoDup_cons in Hnd as [Ha Hl].
  destruct Hx as [<- | Hx], Hy as [<- | Hy].
  - reflexivity.
  - exfalso. apply Ha. rewrite E. apply list_elem_of_In, in_map. exact Hy.
  - exfalso. apply Ha. rewrite <- E. apply list_elem_of_In, in_map. exact Hx.
  - apply IH; assumption.
Qed.

(** The probe's first half, exactly: in a document whose nodes are told
    apart by their identity, the loop over the existing scripts leaves the
    document without the script elements that have a source whose resolved
    form is in the blocked set, and without nothing else. *)
Lemma remove_existing_exact (h : Host) (href : string) (bset : list string)
    (doc : list node) :
  NoDup (map nid (nodes doc)) ->
  remove_existing h href bset doc
  = prune (fun n => is_script n && blocked_src h href bset n) doc.
Proof.
  intros Hnd. unfold remove_existing.
  rewrite <- (prune_none (fun _ => false) doc) at 2 by reflexivity.
  rewrite fold_remove_prune. apply prune_ext. intros n Hn. cbn [orb].
  unfold removed_by, script_elements.
  destruct (is_script n && blocked_src h href bset n) eqn:E.
  - apply existsb_exists. exists n. apply andb_prop in E as [E1 E2].
    split; [|rewrite E2, Nat.eqb_refl; reflexivity].
    apply list_elem_of_In, list_elem_of_filter. split; [rewrite E1; exact I|].
    apply list_elem_of_In. exact Hn.
  - apply not_true_is_false. intros Hex. apply existsb_exists in Hex as [s [Hs Hb]].
    apply andb_prop in Hb as [Hb Hid]. apply Nat.eqb_eq in Hid.
    apply list_elem_of_In, list_elem_of_filter in Hs as [Hscr Hs].
    apply list_elem_of_In in Hs.
    assert (s = n) by (eapply NoDup_map_eq; eassumption). subst s.
    apply Is_true_true in Hscr. rewrite Hscr, Hb in E. discriminate.
Qed.

(** Nothing that a label selection selects is left after [prune]. *)
Lemma prune_leaves_none (K : node -> bool) (doc : list node) :
  by_label K ->
  forall n, In n (nodes (prune K doc)) -> K n = false.
Proof.
  intros L.
  assert (one : forall m n, In n (nodes (prune_in K m)) -> K n = false).
  { induction m as [j t s cs IH] using node_forall_ind. intros n.
    cbn [prune_in]. destruct (K (Node j t s cs)) eqn:E; [intros []|].
    unfold nodes. cbn [map concat subtree]. rewrite app_nil_r.
    intros [<- | Hn]; [rewrite (L j t s _ cs); exact E|].
    clear E. induction cs as [|c cs IHcs]; [destruct Hn|].
    inversion IH as [|? ? Hc Hcs]; subst.
    cbn [map concat] in Hn. rewrite map_app, concat_app in Hn.
    apply in_app_or in Hn as [Hn | Hn]; [apply (Hc n Hn) | apply (IHcs Hcs Hn)]. }
  induction doc as [|m doc IH]; intros n; [intros []|].
  rewrite prune_cons. unfold nodes. rewrite map_app, concat_app.
  intros Hn. apply in_app_or in Hn as [Hn | Hn]; [apply (one m n Hn) | apply (IH n Hn)].
Qed.

(** After the probe no script element with a blocked source is in the
    document. *)
Lemma probe_leaves_no_blocked_script (h : Host) (urls : list string) (p : Page) (n : node) :
  NoDup (map nid (nodes (document p))) ->
  In n (script_elements (document (probe h urls p))) ->
  blocked_src h (location_href p) (blockedSet h (location_href p) urls) n = false.
Proof.
  intros Hnd Hn. cbn [probe document] in Hn. rewrite remove_existing_exact in Hn by exact Hnd.
  unfold script_elements in Hn.
  apply list_elem_of_In, list_elem_of_filter in Hn as [Hs Hn].
  apply list_elem_of_In, prune_leaves_none in Hn; [|apply by_label_blocked].
  apply Is_true_true in Hs. rewrite Hs in Hn. exact Hn.
Qed.

(** The observer's callback on one record with one added node: a script
    element with a blocked source is taken out again, any other node
    stays. *)
Lemma observer_callback_one (h : Host) (href : string) (bset : list string) (n : node)
    (doc : list node) :
  observer_callback h href bset [ {| addedNodes := [n] |} ] doc
  = if is_script n && blocked_src h href bset n then remove_node (nid n) doc else doc.
Proof.
  unfold observer_callback, blocked_src. cbn [fold_left addedNodes].
  destruct (is_script n); reflexivity.
Qed.

(** A node that is not itself a script element stays where the page put
    it, with everything under it, whatever observers are installed. *)
Lemma page_inserts_other (h : Host) (n : node) (p : Page) :
  is_script n = false ->
  document (page_inserts h n p) = document p ++ [n].
Proof.
  intros Hn. unfold page_inserts. cbn [document].
  generalize (document p ++ [n]) as d.
  induction (observers p) as [|bset obs IH]; intros d; cbn [fold_left]; [reflexivity|].
  rewrite observer_callback_one, Hn. apply IH.
Qed.

(** C1.  The observer that the probe installs looks at the nodes of
    [addedNodes] themselves and not under them: on every page, for every
    blocked list, a script element that the page inserts inside a [div]
    after the probe has run is in the document afterwards.  On the page of
    the scenario, with [https://cdn.a/x.js] blocked: the probe takes the
    existing script out and installs the observer; a script element with
    that source which the page inserts directly is removed; the same
    script element inserted inside a [div] stays, although its source is in
    the blocked set. *)
Theorem observer_misses_wrapped_script :
  (forall (h : Host) (urls : list string) (p : Page) (i j : nat) (u : string),
      In (script_node j u)
         (script_elements
            (document (page_inserts h (wrapped_script i j u) (probe h urls p))))) /\
  let h := example_host (Some 7%Z) false false in
  let p1 := probe h [X_JS] (example_page two_scripts) in
  let bset := blockedSet h (location_href p1) [X_JS] in
  observers p1 = [bset] /\
  map src (script_elements (document p1)) = [Y_JS; ""] /\
  blocked_src h (location_href p1) bset (script_node 9 X_JS) = true /\
  map src (script_elements (document (page_inserts h (script_node 9 X_JS) p1))) = [Y_JS; ""] /\
  In (script_node 9 X_JS)
     (script_elements (document (page_inserts h (wrapped_script 8 9 X_JS) p1))).
Proof.
  assert (G : forall (h : Host) (urls : list string) (p : Page) (i j : nat) (u : string),
             In (script_node j u)
                (script_elements
                   (document (page_inserts h (wrapped_script i j u) (probe h urls p))))).
  { intros h urls p i j u. rewrite page_inserts_other by reflexivity.
    unfold script_elements. apply list_elem_of_In, list_elem_of_filter.
    split; [exact I|]. apply list_elem_of_In. unfold nodes.
    rewrite map_app, concat_app. apply in_or_app. right. cbn. right. left. reflexivity. }
  split; [exact G|]. cbn zeta. repeat split; try reflexivity. apply G.
Qed.

(** ** The List Renderer *)

Lemma includes_unfold (p s : string) :
  includes p s = starts_with p s || match s with
                                    | EmptyString => false
                                    | String _ s' => includes p s'
                                    end.
Proof. destruct s; reflexivity. Qed.

Lemma starts_with_app (p b : string) : starts_with p (p +:+ b) = true.
Proof.
  induction p as [|c p IH]; [reflexivity|].
  change (Ascii.eqb c c && starts_with p (p +:+ b) = true).
  rewrite Ascii.eqb_refl. exact IH.
Qed.

Lemma includes_skip (a p s : string) :
  includes p s = true -> includes p (a +:+ s) = true.
Proof.
  intros H. induction a as [|c a IH]; [exact H|].
  change (includes p (String c (a +:+ s)) = true).
  rewrite includes_unfold, IH. apply orb_true_r.
Qed.

Lemma includes_here (p b : string) : includes p (p +:+ b) = true.
Proof. rewrite includes_unfold, starts_with_app. reflexivity. Qed.

(** The markup of a row of script.js holds the URL as it came from the
    page. *)
Lemma row_template_includes (inner outer src : string) :
  includes src (row_template inner outer src) = true.
Proof. unfold row_template. do 4 apply includes_skip. apply includes_here. Qed.

(** The popup script with the save button builds its rows node by node:
    the URL is the [title] property and is read back as it was. *)
Lemma row_v3_plain (src : string) :
  row_markup (row_v3 src) = None /\ row_title (row_v3 src) = Some src.
Proof. split; reflexivity. Qed.

(** C3.  Both revisions of script.js assign a row through [innerHTML]:
    the markup holds the script's URL unescaped, for every URL.  For the
    URL [QUOTED_SRC], a [data:] URL whose path is a double quote followed
    by [><svg/onload=alert(1)>], the quote ends the [title] attribute, so
    the title of the row is [data:text/javascript,] and the rest of the
    URL, an [svg] tag, stands in the markup outside any attribute. *)
Theorem script_js_rows_parse_the_url :
  (forall src, exists html,
      row_markup (row_v1 src) = Some html /\ includes src html = true) /\
  (forall src, exists html,
      row_markup (row_v2 src) = Some html /\ includes src html = true) /\
  row_title (row_v1 QUOTED_SRC) = Some "data:text/javascript," /\
  row_title (row_v2 QUOTED_SRC) = Some "data:text/javascript," /\
  row_title (row_v2 QUOTED_SRC) <> Some QUOTED_SRC /\
  option_map (includes (dquote +:+ "><svg/onload=alert(1)>")) (row_markup (row_v2 QUOTED_SRC))
  = Some true.
Proof.
  split; [|split].
  - intros src. eexists. split; [reflexivity | apply row_template_includes].
  - intros src. eexists. split; [reflexivity | apply row_template_includes].
  - repeat split; try reflexivity. vm_compute. discriminate.
Qed.

(** ** The tab guard *)

Lemma guarded_id_undefined (h : Host) (tab : Tab) :
  active_tab h = Some tab -> tab_id tab = None -> guarded_id h = None.
Proof. intros Ht Hid. unfold guarded_id. rewrite Ht, Hid. reflexivity. Qed.

(** The second revision and the popup script with the save button stop
    at the guard: the list holds the message and nothing else, and the
    one host call made is the tab query. *)
Lemma script2_no_tab (h : Host) (errmsg : string) (w : World) :
  guarded_id h = None ->
  script2 h errmsg w = set_innerHTML NO_TAB (emit CallTabsQuery w).
Proof. intros H. unfold script2. cbn [run_steps script2_step]. rewrite H. reflexivity. Qed.

Lemma script3_no_tab (h : Host) (errmsg : string) (w : World) :
  guarded_id h = None ->
  script3 h errmsg w = set_innerHTML NO_TAB (emit CallTabsQuery w).
Proof. intros H. unfold script3. cbn [run_steps script3_step]. rewrite H. reflexivity. Qed.

(** C4.  The first revision of script.js has no guard.  Opened on a tab
    whose id is undefined, it calls [executeScript] with that id, and the
    list never shows the message: it stays empty when the browser refuses
    the call as it is made, and shows "No external JS files found." when
    the browser reports the error to the callback. *)
Theorem script1_injects_without_tab_id (throws : bool) (st : Storage) (p : Page) :
  let h := example_host None false false in
  let w := script1 h throws (popup_open st p) in
  active_tab h = Some (example_tab None) /\
  In (CallExecuteScript None ListScripts) (events w) /\
  list_html (script_list w) <> NO_TAB /\
  list_html (script_list w) = (if throws then "" else NO_SCRIPTS).
Proof.
  cbn zeta. destruct throws.
  - repeat split; [right; left; reflexivity | discriminate].
  - unfold script1. cbn [run_steps script1_step example_host active_tab example_tab tab_id].
    unfold inject_list, can_inject. cbn [active_tab example_host]. rewrite andb_false_r.
    repeat split; [right; left; reflexivity | discriminate].
Qed.

(** ** Rows of the list *)

Lemma appendChild_fold (row : string -> Row) (scripts : list string) :
  forall w,
    let w' := fold_left (fun w src => appendChild (row src) w) scripts w in
    script_list w' = {| list_html := list_html (script_list w);
                        list_rows := list_rows (script_list w) ++ map row scripts |} /\
    store w' = store w /\ page w' = page w /\ events w' = events w.
Proof.
  induction scripts as [|s scripts IH]; intros w; cbn [fold_left map].
  - rewrite app_nil_r. destruct w as [st pg [html rows] ev]. repeat split.
  - destruct (IH (appendChild (row s) w)) as (Hl & Hs & Hp & He).
    cbn zeta. rewrite Hl, Hs, Hp, He. cbn. rewrite <- app_assoc. repeat split.
Qed.

(** What [render] leaves in the list: the message for an empty result,
    else one row per entry, in the order of the entries. *)
Lemma render_list (row : string -> Row) (scripts : list string) (w : World) :
  script_list (render row scripts w)
  = match scripts with
    | [] => {| list_html := NO_SCRIPTS; list_rows := [] |}
    | _ :: _ => {| list_html := ""; list_rows := map row scripts |}
    end.
Proof.
  unfold render. destruct scripts as [|s scripts]; [reflexivity|].
  cbn [length Nat.eqb emit script_list].
  destruct (appendChild_fold row (s :: scripts) (set_innerHTML "" w)) as (Hl & _).
  cbn zeta in Hl. rewrite Hl. reflexivity.
Qed.

Lemma render_frame (row : string -> Row) (scripts : list string) (w : World) :
  store (render row scripts w) = store w /\ page (render row scripts w) = page w.
Proof.
  unfold render. destruct (length scripts =? 0)%nat; [split; reflexivity|].
  destruct (appendChild_fold row scripts (set_innerHTML "" w)) as (_ & Hs & Hp & _).
  cbn zeta in Hs, Hp. cbn [emit store page]. rewrite Hs, Hp. split; reflexivity.
Qed.

Lemma remove_dups_NoDup (l : list string) : NoDup l -> remove_dups l = l.
Proof.
  induction l as [|x l IH]; intros H; [reflexivity|].
  apply NoDup_cons in H as [Hx Hl]. cbn.
  destruct (decide_rel elem_of x l); [contradiction|]. rewrite IH by exact Hl. reflexivity.
Qed.

Lemma can_inject_emit (h : Host) (tabId : option Z) (e : Event) (w : World) :
  can_inject h tabId (emit e w) = can_inject h tabId w.
Proof. reflexivity. Qed.

Lemma script2_list (h : Host) (errmsg : string) (w : World) (id : Z) :
  guarded_id h = Some id -> can_inject h (Some id) w = true ->
  script_list (script2 h errmsg w) = script_list (render row_v2 (list_scripts (page w)) w).
Proof.
  intros Hg Hi. unfold script2. cbn [run_steps script2_step]. rewrite Hg.
  cbn [script2_step]. unfold inject_list. rewrite !can_inject_emit, Hi.
  cbn [emit page].
  destruct (length (list_scripts (page w)) =? 0)%nat; cbn [snd emit script_list];
    rewrite !render_list; reflexivity.
Qed.

Lemma restore_rows (h : Host) (key : string) (w : World) :
  list_html (script_list (restore h key w)) = list_html (script_list w) /\
  map span_title (list_rows (script_list (restore h key w)))
  = map span_title (list_rows (script_list w)).
Proof.
  unfold restore. destruct (area_get (get_fails h) key (local (store w))); [|split; reflexivity].
  cbn [emit set_list script_list list_html list_rows]. split; [reflexivity|].
  rewrite map_map. apply map_ext. intros r.
  destruct (truthy_str (span_title r) && has _ (span_title r)); [|reflexivity].
  destruct r; reflexivity.
Qed.

Lemma script3_list (h : Host) (errmsg : string) (w : World) (id : Z) :
  guarded_id h = Some id -> can_inject h (Some id) w = true ->
  let l := script_list (script3 h errmsg w) in
  let r := script_list (render row_v3 (list_scripts (page w)) w) in
  list_html l = list_html r /\
  map span_title (list_rows l) = map span_title (list_rows r).
Proof.
  intros Hg Hi. unfold script3. cbn [run_steps script3_step]. rewrite Hg.
  cbn [script3_step]. unfold inject_list. rewrite !can_inject_emit, Hi.
  cbn [emit page].
  destruct (length (list_scripts (page w)) =? 0)%nat; cbn [snd script3_step]; cbn zeta.
  - rewrite !render_list. split; reflexivity.
  - match goal with |- context [restore h ?k ?x] => destruct (restore_rows h k x) as [H1 H2] end.
    rewrite H1, H2. cbn [emit script_list]. rewrite !render_list. split; reflexivity.
Qed.

Lemma span_title_row_v3 (scripts : list string) :
  map span_title (map row_v3 scripts) = scripts.
Proof. induction scripts as [|s l IH]; cbn [map]; [|rewrite IH]; reflexivity. Qed.

(** C5, as the code has it.  When the tab takes the probe, the list
    shows one row per entry of the probe's result, a URL that the page
    loads twice included; for a result in which no URL repeats that is the
    number of different URLs.  For the empty result the list is the one
    row "No external JS files found." and holds no checkbox. *)
Theorem one_row_per_entry (h : Host) (errmsg : string) (w : World) (id : Z) :
  guarded_id h = Some id -> can_inject h (Some id) w = true ->
  let scripts := list_scripts (page w) in
  let l2 := script_list (script2 h errmsg w) in
  let l3 := script_list (script3 h errmsg w) in
  (scripts = [] ->
     l2 = {| list_html := NO_SCRIPTS; list_rows := [] |} /\
     list_html l3 = NO_SCRIPTS /\ list_rows l3 = [] /\
     row_count l2 = 1 /\ checkbox_count l2 = 0 /\
     row_count l3 = 1 /\ checkbox_count l3 = 0) /\
  (scripts <> [] ->
     list_html l2 = "" /\ list_rows l2 = map row_v2 scripts /\
     list_html l3 = "" /\ map span_title (list_rows l3) = scripts /\
     row_count l2 = length scripts /\ row_count l3 = length scripts) /\
  (scripts <> [] -> NoDup scripts ->
     row_count l2 = distinct_count scripts /\ row_count l3 = distinct_count scripts).
Proof.
  intros Hg Hi. cbn zeta.
  pose proof (script2_list h errmsg w id Hg Hi) as H2.
  destruct (script3_list h errmsg w id Hg Hi) as [H3h H3r]. cbn zeta in H3h, H3r.
  rewrite render_list in H2, H3h, H3r.
  assert (Hlen : forall (A B : Type) (f : A -> B) l l', map f l = l' -> length l = length l').
  { intros A B f l l' E. rewrite <- E, length_map. reflexivity. }
  destruct (list_scripts (page w)) as [|s scripts] eqn:E.
  - split; [|split]; [intros _ | intros C; contradiction | intros C; contradiction].
    cbn [list_html list_rows map] in H3h, H3r.
    assert (list_rows (script_list (script3 h errmsg w)) = []) as H3e
        by (destruct (list_rows (script_list (script3 h errmsg w))); [reflexivity | discriminate]).
    unfold row_count, checkbox_count. rewrite H2, H3h, H3e. repeat split.
  - cbn [list_html list_rows] in H3h, H3r. rewrite span_title_row_v3 in H3r.
    assert (Hc2 : row_count (script_list (script2 h errmsg w)) = length (s :: scripts)).
    { unfold row_count. rewrite H2. cbn [list_html list_rows]. rewrite length_map. reflexivity. }
    assert (Hc3 : row_count (script_list (script3 h errmsg w)) = length (s :: scripts)).
    { unfold row_count. rewrite H3h, (Hlen _ _ _ _ _ H3r). reflexivity. }
    split; [|split]; [intros C; discriminate | intros _ | intros _ Hnd].
    + repeat split; try assumption; rewrite H2; reflexivity.
    + unfold distinct_count. rewrite remove_dups_NoDup by exact Hnd. split; assumption.
Qed.

Lemma one_row_per_entry_witness :
  let h := example_host (Some 7%Z) false false in
  let w := example_world empty_storage two_scripts [] in
  guarded_id h = Some 7%Z /\ can_inject h (Some 7%Z) w = true /\
  list_scripts (page w) = [X_JS; Y_JS] /\
  row_count (script_list (script2 h "" w)) = 2 /\
  row_count (script_list (script3 h "" w)) = 2.
Proof.
  cbn zeta. split; [reflexivity|]. split; [reflexivity|]. split; [reflexivity|].
  assert (Hne : list_scripts (page (example_world empty_storage two_scripts [])) <> [])
    by (vm_compute; discriminate).
  destruct (one_row_per_entry (example_host (Some 7%Z) false false) ""
              (example_world empty_storage two_scripts []) 7%Z eq_refl eq_refl)
    as (_ & H & _).
  destruct (H Hne) as (_ & _ & _ & _ & H2 & H3).
  split; [exact H2 | exact H3].
Defined.

(** C5, as the claim has it, fails on a page that loads one script twice:
    one URL, two rows. *)
Lemma repeated_script_two_rows :
  let h := example_host (Some 7%Z) false false in
  let w := example_world empty_storage [script_node 1 X_JS; script_node 2 X_JS] [] in
  distinct_count (list_scripts (page w)) = 1 /\
  row_count (script_list (script2 h "" w)) = 2 /\
  row_count (script_list (script3 h "" w)) = 2 /\
  row_count (script_list (script3 h "" w)) <> distinct_count (list_scripts (page w)).
Proof. cbn zeta. repeat split; try reflexivity. vm_compute. discriminate. Qed.

(** ** Layout of the stored records *)

Lemma storageKey_not_global (id : Z) : storageKey id <> STORAGE_KEY.
Proof.
  unfold storageKey, STORAGE_KEY, Number_toString. intros H. cbn in H.
  inversion H as [H']. clear H.
  destruct (Z.to_int id) as [d | d]; cbn in H'; [|discriminate].
  destruct d; discriminate.
Qed.

Lemma all_true_insert (m : gmap string bool) (u : string) :
  all_true m -> all_true (<[ u := true ]> m).
Proof.
  intros H k b. rewrite lookup_insert. case_decide; [congruence | apply H].
Qed.

Lemma all_true_delete (m : gmap string bool) (u : string) :
  all_true m -> all_true (delete u m).
Proof.
  intros H k b. rewrite lookup_delete. case_decide; [discriminate | apply H].
Qed.

Lemma storage_ok_area (h : Host) (st : Storage) (k : string) (v : JVal) :
  storage_ok st -> store_area h st !! k = Some v -> record_ok k v.
Proof.
  intros [Hs Hl]. unfold store_area. destruct (has_session h); [apply Hs | apply Hl].
Qed.

Lemma getBlockedMap_all_true (h : Host) (st : Storage) :
  storage_ok st -> all_true (getBlockedMap h st).
Proof.
  intros Hok. unfold getBlockedMap, storageGet, area_get.
  destruct (get_fails h); [intros k b; rewrite lookup_empty; discriminate|].
  destruct (store_area h st !! STORAGE_KEY) as [v|] eqn:E.
  - rewrite lookup_singleton_eq.
    destruct v as [m | l]; [|intros k b; rewrite lookup_empty; discriminate].
    destruct (storage_ok_area h st _ _ Hok E) as [[_ (m' & Hm & Ht)] | (id & l & Hk & Hv)].
    + inversion Hm; subst. exact Ht.
    + discriminate.
  - rewrite lookup_empty. intros k b. rewrite lookup_empty. discriminate.
Qed.

Lemma with_store_area_ok (h : Host) (a : gmap string JVal) (st : Storage) :
  storage_ok st -> (forall k v, a !! k = Some v -> record_ok k v) ->
  storage_ok (with_store_area h a st).
Proof.
  intros [Hs Hl] Ha. unfold with_store_area.
  destruct (has_session h); split; cbn; assumption.
Qed.

Lemma updateBlockedEntry_ok (h : Host) (u : string) (b : bool) (st : Storage) :
  storage_ok st -> storage_ok (snd (updateBlockedEntry h u b st)).
Proof.
  intros Hok. unfold updateBlockedEntry. cbn [snd].
  unfold setBlockedMap, storageSet. apply with_store_area_ok; [exact Hok|].
  intros k v. unfold area_set. destruct (set_fails h); [apply storage_ok_area; exact Hok|].
  intros Hk. apply lookup_union_Some_raw in Hk as [Hk | [_ Hk]].
  - apply lookup_singleton_Some in Hk as [<- <-]. left. split; [reflexivity|].
    eexists. split; [reflexivity|].
    pose proof (getBlockedMap_all_true h st Hok) as Ht.
    destruct b; [apply all_true_insert | apply all_true_delete]; exact Ht.
  - eapply storage_ok_area; eassumption.
Qed.

Lemma removeScriptsInTab_store (h : Host) (tabId : option Z) (urls : option (list string))
    (w : World) :
  store (removeScriptsInTab h tabId urls w) = store w.
Proof.
  unfold removeScriptsInTab. destruct urls as [l|]; [|reflexivity].
  destruct (negb (truthy_id tabId) || (length l =? 0)%nat); [reflexivity|].
  destruct (can_inject h tabId _); reflexivity.
Qed.

(** The one thing the checkbox handler does to the storage is the write of
    [updateBlockedEntry]. *)
Lemma onCheckboxChange_store (h : Host) (i : nat) (w : World) :
  store (onCheckboxChange h i w) = store w \/
  exists r, list_rows (script_list w) !! i = Some r /\
            truthy_str (getUrlFromCheckbox h r) = true /\
            store (onCheckboxChange h i w)
            = snd (updateBlockedEntry h (getUrlFromCheckbox h r) (row_checked r) (store w)).
Proof.
  unfold onCheckboxChange.
  destruct (list_rows (script_list w) !! i) as [r|] eqn:Er; [|left; reflexivity].
  destruct (truthy_str (getUrlFromCheckbox h r)) eqn:Ek; [|left; reflexivity].
  right. exists r. split; [reflexivity|]. split; [exact Ek|]. cbn [negb].
  cbn [emit store].
  destruct (updateBlockedEntry h (getUrlFromCheckbox h r) (row_checked r) (store w))
    as [m st] eqn:Eu.
  cbn [snd].
  destruct (active_tab h) as [tab|]; [|reflexivity].
  destruct (tab_id tab); [|reflexivity].
  destruct (row_checked r); [|reflexivity].
  rewrite removeScriptsInTab_store. reflexivity.
Qed.

Lemma toggle_row_store (i : nat) (w : World) : store (toggle_row i w) = store w.
Proof. unfold toggle_row. destruct (list_rows (script_list w) !! i); reflexivity. Qed.

Lemma save_click_local (h : Host) (id : Z) (w : World) :
  session (store (save_click h id w)) = session (store w) /\
  local (store (save_click h id w))
  = area_set (set_fails h)
      {[ storageKey id :=
           VList (map span_title (filter (fun r => row_checked r) (list_rows (script_list w)))) ]}
      (local (store w)).
Proof. unfold save_click. destruct (set_fails h); split; reflexivity. Qed.

Lemma act_ok (h : Host) (w : World) (a : Action) :
  storage_ok (store w) -> storage_ok (store (act h w a)).
Proof.
  intros Hok. destruct a as [i | id]; cbn [act].
  - destruct (onCheckboxChange_store h i (toggle_row i w)) as [E | (r & _ & _ & E)];
      rewrite E, toggle_row_store; [exact Hok | apply updateBlockedEntry_ok; exact Hok].
  - destruct (save_click_local h id w) as [Es El]. destruct Hok as [Hs Hl].
    split; [rewrite Es; exact Hs|]. rewrite El. intros k v. unfold area_set.
    destruct (set_fails h); [apply Hl|]. intros Hk.
    apply lookup_union_Some_raw in Hk as [Hk | [_ Hk]]; [|apply Hl; exact Hk].
    apply lookup_singleton_Some in Hk as [<- <-]. right. eauto.
Qed.

Lemma storage_ok_empty : storage_ok empty_storage.
Proof. split; intros k v; cbn; rewrite lookup_empty; discriminate. Qed.

Lemma acts_ok (h : Host) (acts : list Action) :
  forall w, storage_ok (store w) -> storage_ok (store (fold_left (act h) acts w)).
Proof.
  induction acts as [|a acts IH]; intros w Hok; [exact Hok|].
  cbn [fold_left]. apply IH, act_ok, Hok.
Qed.

(** C2, as the code has it.  Whatever the user toggles and saves, starting
    from an empty storage: the record under [blocked_scripts] is an object
    whose values are all [true]; a record under a per-tab key
    [blocked_<tabId>] is an array of URLs, the titles of the rows that were
    checked at the save; the two kinds of key never coincide, and no other
    key is written. *)
Theorem stored_records_layout (h : Host) (p : Page) (l : ListEl) (acts : list Action) :
  let w := fold_left (act h) acts
             {| store := empty_storage; page := p; script_list := l; events := [] |} in
  (forall v, session (store w) !! STORAGE_KEY = Some v \/ local (store w) !! STORAGE_KEY = Some v ->
             is_blocked_map v) /\
  (forall id v, session (store w) !! storageKey id = Some v \/
                local (store w) !! storageKey id = Some v ->
                exists urls, v = VList urls) /\
  (forall k v, session (store w) !! k = Some v \/ local (store w) !! k = Some v ->
               k = STORAGE_KEY \/ exists id, k = storageKey id) /\
  (forall id, storageKey id <> STORAGE_KEY) /\
  (forall id, set_fails h = false ->
     local (store (save_click h id w)) !! storageKey id
     = Some (VList (map span_title
                      (filter (fun r => row_checked r) (list_rows (script_list w)))))).
Proof.
  cbn zeta.
  set (w := fold_left (act h) acts _).
  assert (Hok : storage_ok (store w)) by (apply acts_ok, storage_ok_empty).
  assert (Hrec : forall k v, session (store w) !! k = Some v \/ local (store w) !! k = Some v ->
                             record_ok k v).
  { intros k v [H | H]; [apply (proj1 Hok) | apply (proj2 Hok)]; exact H. }
  split; [|split; [|split; [|split]]].
  - intros v Hv. destruct (Hrec _ _ Hv) as [[_ Hm] | (id & urls & Hk & _)]; [exact Hm|].
    symmetry in Hk. destruct (storageKey_not_global id Hk).
  - intros id v Hv. destruct (Hrec _ _ Hv) as [[Hk _] | (id' & urls & _ & Hl)]; [|eauto].
    destruct (storageKey_not_global id Hk).
  - intros k v Hv. destruct (Hrec _ _ Hv) as [[Hk _] | (id & urls & Hk & _)]; eauto.
  - apply storageKey_not_global.
  - intros id Hs. destruct (save_click_local h id w) as [_ El]. rewrite El.
    unfold area_set. rewrite Hs.
    erewrite lookup_union_Some_l; [reflexivity | apply lookup_singleton_eq].
Qed.

Lemma stored_records_layout_witness :
  let h := example_host (Some 7%Z) false false in
  let rows := [RowNodes X_JS "x.js" false; RowNodes Y_JS "y.js" true] in
  let w := fold_left (act h) [Toggle 0; Save 7%Z]
             {| store := empty_storage; page := example_page two_scripts;
                script_list := {| list_html := ""; list_rows := rows |}; events := [] |} in
  session (store w) !! STORAGE_KEY = Some (VMap {[ X_JS := true ]}) /\
  is_blocked_map (VMap {[ X_JS := true ]}) /\
  local (store w) !! storageKey 7%Z = Some (VList [X_JS; Y_JS]) /\
  (exists urls, VList [X_JS; Y_JS] = VList urls).
Proof.
  cbn zeta.
  pose proof (stored_records_layout (example_host (Some 7%Z) false false)
                (example_page two_scripts)
                {| list_html := "";
                   list_rows := [RowNodes X_JS "x.js" false; RowNodes Y_JS "y.js" true] |}
                [Toggle 0; Save 7%Z]) as (Hmap & Hlist & _).
  cbn zeta in Hmap, Hlist.
  assert (E1 : session (store (fold_left (act (example_host (Some 7%Z) false false))
                                 [Toggle 0; Save 7%Z]
                                 {| store := empty_storage; page := example_page two_scripts;
                                    script_list :=
                                      {| list_html := "";
                                         list_rows := [RowNodes X_JS "x.js" false;
                                                       RowNodes Y_JS "y.js" true] |};
                                    events := [] |})) !! STORAGE_KEY
               = Some (VMap {[ X_JS := true ]})) by (vm_compute; reflexivity).
  assert (E2 : local (store (fold_left (act (example_host (Some 7%Z) false false))
                               [Toggle 0; Save 7%Z]
                               {| store := empty_storage; page := example_page two_scripts;
                                  script_list :=
                                    {| list_html := "";
                                       list_rows := [RowNodes X_JS "x.js" false;
                                                     RowNodes Y_JS "y.js" true] |};
                                  events := [] |})) !! storageKey 7%Z
               = Some (VList [X_JS; Y_JS])) by (vm_compute; reflexivity).
  split; [exact E1|]. split; [apply Hmap; left; exact E1|].
  split; [exact E2|]. apply (Hlist 7%Z). right. exact E2.
Defined.

(** C2, as the claim has it, fails on the per-tab scheme: after a save
    with the first row checked, the record under [blocked_7] is the array
    of that row's URL, not an object from URL to [true]. *)
Lemma per_tab_record_is_an_array :
  let h := example_host (Some 7%Z) false false in
  let w := save_click h 7%Z
             (toggle_row 0 (script3 h "" (example_world empty_storage two_scripts []))) in
  local (store w) !! "blocked_7" = Some (VList [X_JS]) /\
  ~ uniform_layout (store w).
Proof.
  cbn zeta.
  assert (E : local (store (save_click (example_host (Some 7%Z) false false) 7%Z
                 (toggle_row 0 (script3 (example_host (Some 7%Z) false false) ""
                                  (example_world empty_storage two_scripts [])))))
              !! "blocked_7" = Some (VList [X_JS])) by (vm_compute; reflexivity).
  split; [exact E|].
  intros U. destruct (U "blocked_7" (VList [X_JS]) (or_intror E)) as (m & Hm & _).
  discriminate.
Qed.

(** ** Keys of the Blocked Map *)

Lemma truthy_str_ne (s : string) : truthy_str s = true <-> s <> "".
Proof. destruct s; cbn; split; intros H; congruence. Qed.

Lemma example_href_absolute (id : option Z) (getf setf : bool) :
  href_absolute (example_host id getf setf).
Proof.
  intros raw base href. cbn [URL_href example_host]. unfold example_URL_href.
  match goal with |- match ?cand with _ => _ end = _ -> _ => destruct cand as [u|] end;
    [|discriminate].
  destruct (has_scheme u) eqn:E; [|discriminate].
  intros H. inversion H; subst. exact E.
Qed.

(** A change on the checkbox of a row with a non-empty key writes the map
    that [updateBlockedEntry] computes. *)
Lemma onCheckboxChange_writes (h : Host) (i : nat) (w : World) (r : Row) :
  list_rows (script_list w) !! i = Some r ->
  truthy_str (getUrlFromCheckbox h r) = true ->
  store (onCheckboxChange h i w)
  = snd (updateBlockedEntry h (getUrlFromCheckbox h r) (row_checked r) (store w)).
Proof.
  intros Er Ek. unfold onCheckboxChange. rewrite Er, Ek. cbn [negb emit store].
  destruct (updateBlockedEntry h (getUrlFromCheckbox h r) (row_checked r) (store w))
    as [m st] eqn:Eu.
  cbn [snd].
  destruct (active_tab h) as [tab|]; [|reflexivity].
  destruct (tab_id tab); [|reflexivity].
  destruct (row_checked r); [|reflexivity].
  rewrite removeScriptsInTab_store. reflexivity.
Qed.

Lemma onCheckboxChange_empty_key (h : Host) (i : nat) (w : World) (r : Row) :
  list_rows (script_list w) !! i = Some r ->
  getUrlFromCheckbox h r = "" ->
  store (onCheckboxChange h i w) = store w.
Proof. intros Er Ek. unfold onCheckboxChange. rewrite Er, Ek. reflexivity. Qed.

(** C7, as the code has it.  With a storage that answers, checking the
    box of a row whose title is [raw] stores the key
    [toAbsolute(raw, base)], where [base] is the active tab's URL, or the
    popup's own location when the tab reports none.  When the URL
    constructor accepts [raw] against [base], the key is the [href] it
    returns, a resolved absolute URL, and a map of resolved keys stays
    one.  When the constructor throws, the key is [raw] as it stands.  An
    empty key stores nothing. *)
Theorem stored_key_is_toAbsolute (h : Host) (w : World) (i : nat) (r : Row) (raw : string) :
  get_fails h = false -> set_fails h = false ->
  list_rows (script_list w) !! i = Some r ->
  row_title r = Some raw -> row_checked r = true ->
  let key := toAbsolute h raw (base_url h) in
  let old := getBlockedMap h (store w) in
  let new := getBlockedMap h (store (onCheckboxChange h i w)) in
  (key <> "" -> new = <[ key := true ]> old) /\
  (key = "" -> new = old) /\
  (forall href, URL_href h raw (base_url h) = Some href -> key = href /\ resolved h key) /\
  (URL_href h raw (base_url h) = None -> key = raw) /\
  ((forall k, is_Some (old !! k) -> resolved h k) ->
   is_Some (URL_href h raw (base_url h)) ->
   forall k, is_Some (new !! k) -> resolved h k).
Proof.
  intros Hg Hs Er Et Hc. cbn zeta.
  assert (Ek : getUrlFromCheckbox h r = toAbsolute h raw (base_url h)).
  { unfold getUrlFromCheckbox. rewrite Et. reflexivity. }
  assert (Hnew : toAbsolute h raw (base_url h) <> "" ->
                 getBlockedMap h (store (onCheckboxChange h i w))
                 = <[ toAbsolute h raw (base_url h) := true ]> (getBlockedMap h (store w))).
  { intros Hne. rewrite (onCheckboxChange_writes h i w r Er).
    - rewrite Ek, Hc. unfold updateBlockedEntry. cbn [snd].
      apply getBlockedMap_set; assumption.
    - rewrite Ek. apply truthy_str_ne. exact Hne. }
  assert (Hres : forall href, URL_href h raw (base_url h) = Some href ->
                              toAbsolute h raw (base_url h) = href /\
                              resolved h (toAbsolute h raw (base_url h))).
  { intros href Hh. unfold toAbsolute. rewrite Hh. split; [reflexivity|].
    exists raw, (base_url h). exact Hh. }
  split; [exact Hnew|]. split; [|split; [exact Hres|split]].
  - intros He. rewrite (onCheckboxChange_empty_key h i w r Er); [reflexivity|].
    rewrite Ek. exact He.
  - intros Hn. unfold toAbsolute. rewrite Hn. reflexivity.
  - intros Hold [href Hh] k Hk. destruct (Hres href Hh) as [Hkey Hr].
    destruct (decide (toAbsolute h raw (base_url h) = "")) as [He | Hne].
    + rewrite (onCheckboxChange_empty_key h i w r Er) in Hk by (rewrite Ek; exact He).
      apply Hold. exact Hk.
    + rewrite (Hnew Hne) in Hk. rewrite lookup_insert in Hk.
      case_decide as Hd; [subst k; exact Hr | apply Hold; exact Hk].
Qed.

Lemma stored_key_is_toAbsolute_witness :
  let h := example_host (Some 7%Z) false false in
  let w := example_world empty_storage [script_node 1 "/app.js"] [set_checked true (row_v2 "/app.js")] in
  base_url h = "https://example.com/page" /\
  row_title (set_checked true (row_v2 "/app.js")) = Some "/app.js" /\
  toAbsolute h "/app.js" (base_url h) = "https://example.com/app.js" /\
  getBlockedMap h (store (onCheckboxChange h 0 w))
  = <[ "https://example.com/app.js" := true ]> (getBlockedMap h (store w)).
Proof.
  cbn zeta. split; [reflexivity|]. split; [reflexivity|]. split; [reflexivity|].
  destruct (stored_key_is_toAbsolute (example_host (Some 7%Z) false false)
              (example_world empty_storage [script_node 1 "/app.js"]
                 [set_checked true (row_v2 "/app.js")])
              0 (set_checked true (row_v2 "/app.js")) "/app.js"
              eq_refl eq_refl eq_refl eq_refl eq_refl) as [H _].
  apply H. discriminate.
Defined.

(** C7, as the claim has it, fails for a source that no URL parser
    accepts.  A script whose [src] is [//] names no host: the page reports
    the attribute as it is written, the popup lists it, and checking its
    box stores the key [//], which has no scheme and is the [href] of no
    URL. *)
Lemma unresolvable_source_is_stored_raw :
  let h := example_host (Some 7%Z) false false in
  let w := act h (script2 h "" (example_world empty_storage [script_node 1 "//"] [])) (Toggle 0) in
  URL_href h "//" (base_url h) = None /\
  getBlockedMap h (store w) !! "//" = Some true /\
  has_scheme "//" = false /\
  ~ resolved h "//".
Proof.
  cbn zeta. split; [reflexivity|]. split; [vm_compute; reflexivity|]. split; [reflexivity|].
  intros (raw & base & H). apply (example_href_absolute (Some 7%Z) false false) in H.
  discriminate.
Qed.

(** ** Events a step adds *)

Lemma only_refl (ok : Event -> bool) (w : World) : only ok w w.
Proof. exists []. rewrite app_nil_r. split; reflexivity. Qed.

Lemma only_same (ok : Event -> bool) (w w' : World) :
  events w' = events w -> only ok w w'.
Proof. intros E. exists []. rewrite app_nil_r. split; [exact E | reflexivity]. Qed.

Lemma only_trans (ok : Event -> bool) (w w1 w2 : World) :
  only ok w w1 -> only ok w1 w2 -> only ok w w2.
Proof.
  intros (n1 & E1 & F1) (n2 & E2 & F2). exists (n1 ++ n2).
  rewrite E2, E1, app_assoc, forallb_app, F1, F2. split; reflexivity.
Qed.

Lemma only_emit (ok : Event -> bool) (e : Event) (w : World) :
  ok e = true -> only ok w (emit e w).
Proof. intros H. exists [e]. cbn. rewrite H. split; reflexivity. Qed.

Lemma render_events (row : string -> Row) (scripts : list string) (w : World) :
  events (render row scripts w)
  = events w ++ (if (length scripts =? 0)%nat then [] else [Rendered]).
Proof.
  unfold render. destruct (length scripts =? 0)%nat; [cbn; rewrite app_nil_r; reflexivity|].
  destruct (appendChild_fold row scripts (set_innerHTML "" w)) as (_ & _ & _ & He).
  cbn zeta in He. cbn [emit events]. rewrite He. reflexivity.
Qed.

Lemma only_weaken (ok ok' : Event -> bool) (w w' : World) :
  (forall e, ok e = true -> ok' e = true) -> only ok w w' -> only ok' w w'.
Proof.
  intros Hi (new & E & F). exists new. split; [exact E|].
  apply forallb_forall. intros e He. apply Hi.
  rewrite forallb_forall in F. apply F, He.
Qed.

Lemma removeScriptsInTab_only (h : Host) (tabId : option Z) (urls : option (list string))
    (w : World) :
  only handler_event w (removeScriptsInTab h tabId urls w) /\
  script_list (removeScriptsInTab h tabId urls w) = script_list w.
Proof.
  unfold removeScriptsInTab. destruct urls as [l|]; [|split; [apply only_refl | reflexivity]].
  destruct (negb (truthy_id tabId) || (length l =? 0)%nat);
    [split; [apply only_refl | reflexivity]|].
  destruct (can_inject h tabId _); (split; [|reflexivity]).
  - eexists. cbn [set_page emit events]. split; reflexivity.
  - eexists. cbn [emit events]. rewrite <- app_assoc. split; reflexivity.
Qed.

(** The checkbox handler leaves host calls behind, and the warning of a
    refused injection; it writes no other console line and does not touch
    the list. *)
Lemma onCheckboxChange_only (h : Host) (i : nat) (w : World) :
  only handler_event w (onCheckboxChange h i w) /\
  script_list (onCheckboxChange h i w) = script_list w.
Proof.
  unfold onCheckboxChange.
  destruct (list_rows (script_list w) !! i) as [r|]; [|split; [apply only_refl | reflexivity]].
  assert (Q1 : only handler_event w (emit CallTabsQuery w)) by (apply only_emit; reflexivity).
  destruct (truthy_str (getUrlFromCheckbox h r)); cbn [negb]; [|split; [exact Q1 | reflexivity]].
  destruct (updateBlockedEntry h (getUrlFromCheckbox h r) (row_checked r) _) as [m st].
  set (w4 := emit CallTabsQuery (set_store st _)).
  assert (Q4 : only handler_event w w4 /\ script_list w4 = script_list w).
  { split; [|reflexivity]. eexists. unfold w4. cbn [emit set_store events].
    rewrite <- !app_assoc. split; reflexivity. }
  destruct (active_tab h) as [tab|]; [|exact Q4].
  destruct (tab_id tab); [|exact Q4].
  destruct (row_checked r); [|exact Q4].
  destruct (removeScriptsInTab_only h (Some z) (Some [getUrlFromCheckbox h r]) w4) as [Q5 L5].
  split; [eapply only_trans; [exact (proj1 Q4) | exact Q5]|].
  rewrite L5. exact (proj2 Q4).
Qed.

Lemma onCheckboxChange_quiet (h : Host) (i : nat) (w : World) :
  only quiet w (onCheckboxChange h i w) /\
  script_list (onCheckboxChange h i w) = script_list w.
Proof.
  destruct (onCheckboxChange_only h i w) as [Q L]. split; [|exact L].
  eapply only_weaken; [|exact Q]. intros e He. destruct e; try discriminate; reflexivity.
Qed.

(** ** Storage failures *)

Lemma with_store_area_same (h : Host) (st : Storage) :
  with_store_area h (store_area h st) st = st.
Proof. unfold with_store_area, store_area. destruct st, (has_session h); reflexivity. Qed.

(** How the two scripts treat a storage failure.  In blocking.js the helpers
    never look at the error: after a failed read [storageGet] resolves to
    the empty object, which is also its answer for a key that is not
    stored, so [getBlockedMap] is the empty map; after a failed write or
    removal [storageSet] and [storageRemoveKey] resolve with the storage
    as it was; the checkbox handler leaves host calls behind and, at most,
    the warning of a refused injection.  The popup script with the save
    button looks at the error: a failed read is logged and no checkbox
    changes, a failed write is logged and the storage is as it was. *)
Theorem storage_errors_are_swallowed (h : Host) (st : Storage) (key : string)
    (obj : gmap string JVal) (w : World) (id : Z) :
  (get_fails h = true -> storageGet h key st = ∅ /\ getBlockedMap h st = ∅) /\
  (store_area h st !! key = None -> storageGet h key st = ∅) /\
  (set_fails h = true -> storageSet h obj st = st) /\
  (remove_fails h = true -> storageRemoveKey h key st = st) /\
  (get_fails h = true ->
     restore h key w = emit (ConsoleError "Storage get error:") w) /\
  (set_fails h = true ->
     store (save_click h id w) = store w /\
     In (ConsoleError "Storage set error:") (events (save_click h id w))) /\
  (forall i, only handler_event w (onCheckboxChange h i w)).
Proof.
  split; [|split; [|split; [|split; [|split; [|split]]]]];
    [| | | | | | intros i; apply onCheckboxChange_only].
  - intros Hg. unfold getBlockedMap, storageGet, area_get. rewrite Hg.
    split; reflexivity.
  - intros Hk. unfold storageGet, area_get. rewrite Hk. destruct (get_fails h); reflexivity.
  - intros Hs. unfold storageSet, area_set. rewrite Hs. apply with_store_area_same.
  - intros Hr. unfold storageRemoveKey, area_remove. rewrite Hr. apply with_store_area_same.
  - intros Hg. unfold restore, area_get. rewrite Hg. reflexivity.
  - intros Hs. unfold save_click, area_set. rewrite Hs. cbn [emit set_store store events].
    split; [destruct (store w); reflexivity|].
    apply in_or_app. right. left. reflexivity.
Qed.

Lemma storage_errors_are_swallowed_witness :
  let h := example_host (Some 7%Z) true true in
  let st := {| session := {[ STORAGE_KEY := VMap {[ Y_JS := true ]} ]}; local := ∅ |} in
  let w := example_world st two_scripts [RowNodes X_JS "x.js" true] in
  get_fails h = true /\ set_fails h = true /\
  getBlockedMap h st = ∅ /\
  storageSet h {[ STORAGE_KEY := VMap ∅ ]} st = st /\
  restore h (storageKey 7%Z) w = emit (ConsoleError "Storage get error:") w /\
  store (save_click h 7%Z w) = store w.
Proof.
  cbn zeta. split; [reflexivity|]. split; [reflexivity|].
  destruct (storage_errors_are_swallowed (example_host (Some 7%Z) true true)
              {| session := {[ STORAGE_KEY := VMap {[ Y_JS := true ]} ]}; local := ∅ |}
              (storageKey 7%Z) {[ STORAGE_KEY := VMap ∅ ]}
              (example_world
                 {| session := {[ STORAGE_KEY := VMap {[ Y_JS := true ]} ]}; local := ∅ |}
                 two_scripts [RowNodes X_JS "x.js" true]) 7%Z)
    as (Hget & _ & Hset & _ & Hrestore & Hsave & _).
  split; [exact (proj2 (Hget eq_refl))|].
  split; [exact (Hset eq_refl)|].
  split; [exact (Hrestore eq_refl)|].
  exact (proj1 (Hsave eq_refl)).
Defined.

(** C8.  A failed read in blocking.js is neither reported nor logged, and
    the call is no no-op.  The map holds [https://cdn.b/y.js]; the read
    behind a toggle fails and the write works.  The handler is told
    nothing, writes no console line, takes the map to be empty and stores
    a map that holds the toggled URL alone: the entry that was stored is
    gone.  On the same failure the restore callback of the popup with the
    save button logs the error and leaves the list and the storage as
    they were. *)
Lemma failed_read_overwrites_the_map :
  let h := example_host (Some 7%Z) true false in
  let st := {| session := {[ STORAGE_KEY := VMap {[ Y_JS := true ]} ]}; local := ∅ |} in
  let w0 := example_world st two_scripts [row_v2 X_JS; row_v2 Y_JS] in
  let w := act h w0 (Toggle 0) in
  get_fails h = true /\
  session (store w0) !! STORAGE_KEY = Some (VMap {[ Y_JS := true ]}) /\
  session (store w) !! STORAGE_KEY = Some (VMap {[ X_JS := true ]}) /\
  store w <> store w0 /\
  (forall msg, ~ In (ConsoleError msg) (events w) /\
               ~ In (ConsoleWarn msg) (events w) /\
               ~ In (ConsoleLog msg) (events w)) /\
  restore h (storageKey 7%Z) w0 = emit (ConsoleError "Storage get error:") w0.
Proof.
  cbn zeta.
  set (h := example_host (Some 7%Z) true false).
  set (w0 := example_world _ two_scripts _).
  assert (E0 : session (store w0) !! STORAGE_KEY = Some (VMap {[ Y_JS := true ]}))
    by (vm_compute; reflexivity).
  assert (E1 : session (store (act h w0 (Toggle 0))) !! STORAGE_KEY
               = Some (VMap {[ X_JS := true ]})) by (vm_compute; reflexivity).
  split; [reflexivity|]. split; [exact E0|]. split; [exact E1|]. split; [|split].
  - intros E. rewrite E, E0 in E1.
    assert (Em : ({[ Y_JS := true ]} : gmap string bool) !! X_JS
                 = ({[ X_JS := true ]} : gmap string bool) !! X_JS) by congruence.
    vm_compute in Em. discriminate.
  - intros msg.
    assert (Ev : events (act h w0 (Toggle 0))
                 = [CallTabsQuery; CallStorageGet STORAGE_KEY; CallStorageSet STORAGE_KEY;
                    CallTabsQuery; CallExecuteScript (Some 7%Z) (RemoveScripts [X_JS])])
      by (vm_compute; reflexivity).
    rewrite Ev. split; [|split]; intros H;
      repeat (destruct H as [H | H]; [discriminate|]); exact H.
  - reflexivity.
Qed.

(** ** Order of events in one popup *)

Lemma precedes_nil (a b : Event -> bool) : precedes a b [].
Proof. intros pre x post E. destruct pre; discriminate. Qed.

Lemma precedes_app (a b : Event -> bool) (l new : list Event) :
  precedes a b l ->
  (existsb b new = true -> existsb a l = true) ->
  precedes a b (l ++ new).
Proof.
  intros H C pre x post E bx.
  apply app_eq_app in E as [m [[E1 E2] | [E1 E2]]].
  - destruct m as [|y m].
    + rewrite app_nil_r in E1. subst pre. apply C.
      cbn in E2. rewrite <- E2. cbn. rewrite bx. reflexivity.
    + cbn in E2. inversion E2; subst y post. apply (H pre x m E1 bx).
  - subst pre. rewrite existsb_app. rewrite C; [reflexivity|].
    rewrite E2, existsb_app. cbn. rewrite bx. apply orb_true_r.
Qed.

Lemma precedes_quiet (a b : Event -> bool) (l new : list Event) :
  precedes a b l -> existsb b new = false -> precedes a b (l ++ new).
Proof. intros H N. apply precedes_app; [exact H|]. rewrite N. discriminate. Qed.

Lemma precedes_none (a b : Event -> bool) (l : list Event) :
  existsb b l = false -> precedes a b l.
Proof. intros N. apply (precedes_quiet a b [] l); [apply precedes_nil | exact N]. Qed.

Lemma precedes_after (a b : Event -> bool) (l new : list Event) :
  precedes a b l -> existsb a l = true -> precedes a b (l ++ new).
Proof. intros H A. apply precedes_app; [exact H | intros _; exact A]. Qed.

Lemma forallb_not_existsb (ok b : Event -> bool) (l : list Event) :
  (forall e, ok e = true -> b e = false) ->
  forallb ok l = true -> existsb b l = false.
Proof.
  intros Hob. induction l as [|e l IH]; [reflexivity|]. cbn.
  intros H. apply andb_prop in H as [He Hl]. rewrite (Hob e He), IH by exact Hl. reflexivity.
Qed.

Lemma script2_step_facts (h : Host) (errmsg : string) (pc : Pc2) (w : World) :
  let w' := snd (script2_step h errmsg pc w) in
  only (fun e => negb (is_handled e || is_reconciled e)) w w' /\
  (list_rows (script_list w') <> [] ->
   list_rows (script_list w) <> [] \/ existsb is_rendered (events w') = true).
Proof.
  cbn zeta. destruct pc as [| |id|id|]; cbn [script2_step snd].
  - split; [apply only_emit; reflexivity | intros H; left; exact H].
  - destruct (guarded_id h); cbn [snd].
    + split; [apply only_emit; reflexivity | intros H; left; exact H].
    + split; [apply only_same; reflexivity | intros H; destruct H; reflexivity].
  - destruct (inject_list h (Some id) w) as [scripts|]; cbn [snd].
    + assert (R : only (fun e => negb (is_handled e || is_reconciled e)) w
                    (render row_v2 scripts w)).
      { eexists. split; [apply render_events|].
        destruct (length scripts =? 0)%nat; reflexivity. }
      assert (L : list_rows (script_list (render row_v2 scripts w)) <> [] ->
                  existsb is_rendered (events (render row_v2 scripts w)) = true).
      { rewrite render_list, render_events. destruct scripts as [|s l]; cbn [list_rows].
        - intros H. destruct H. reflexivity.
        - intros _. rewrite existsb_app. cbn. apply orb_true_r. }
      destruct (length scripts =? 0)%nat eqn:El; cbn [snd].
      * split; [exact R | intros H; right; apply L; exact H].
      * split; [eapply only_trans; [exact R | apply only_emit; reflexivity]|].
        intros H. right. cbn [emit events script_list] in *. rewrite existsb_app.
        rewrite (L H). reflexivity.
    + split; [|intros H; destruct H; reflexivity].
      eexists. unfold on_error. cbn [set_innerHTML set_list emit events]. split; reflexivity.
  - split; [apply only_refl | intros H; left; exact H].
  - split; [apply only_refl | intros H; left; exact H].
Qed.

Lemma init_step_facts (h : Host) (pc : InitPc) (w : World) :
  let pc' := fst (init_step h pc w) in
  let w' := snd (init_step h pc w) in
  (pc' <> I_start -> pc <> I_start \/ existsb is_change_listener (events w') = true) /\
  (exists new, events w' = events w ++ new /\
               existsb is_handled new = false /\
               existsb is_rendered new = false /\
               (existsb is_reconciled new = true -> pc <> I_start)) /\
  (list_rows (script_list w') <> [] -> list_rows (script_list w) <> []).
Proof.
  cbn zeta. destruct pc as [| |blocked|]; cbn [init_step fst snd].
  - split; [intros _; right; cbn [emit events]; rewrite !existsb_app; cbn;
            rewrite orb_true_r; reflexivity|].
    split; [|intros H; exact H].
    eexists. cbn [emit events]. rewrite <- app_assoc.
    split; [reflexivity|]. repeat split. discriminate.
  - destruct (length (list_rows (script_list w)) =? 0)%nat; cbn [fst snd].
    + split; [intros _; left; discriminate|]. split; [|intros H; exact H].
      exists []. rewrite app_nil_r. repeat split. discriminate.
    + split; [intros _; left; discriminate|]. split; [|intros H; exact H].
      eexists. cbn [emit events]. split; [reflexivity|]. repeat split. discriminate.
  - split; [intros _; left; discriminate|]. split.
    + eexists. cbn [emit set_list events]. split; [reflexivity|]. repeat split. discriminate.
    + cbn [emit set_list script_list list_rows]. intros H E. apply H.
      rewrite E. reflexivity.
  - split; [intros _; left; discriminate|]. split; [|intros H; exact H].
    exists []. rewrite app_nil_r. repeat split. discriminate.
Qed.

Lemma toggle_row_rows (i : nat) (w : World) :
  events (toggle_row i w) = events w /\
  (list_rows (script_list (toggle_row i w)) <> [] -> list_rows (script_list w) <> []).
Proof.
  unfold toggle_row. destruct (list_rows (script_list w) !! i) as [r|] eqn:E;
    [|split; [reflexivity | intros H; exact H]].
  split; [reflexivity|]. intros _ C. rewrite C in E. discriminate.
Qed.

(** Every task keeps the invariant. *)
Lemma task_step_inv (h : Host) (errmsg : string) (t : Task) (s : Popup) :
  popup_inv s -> popup_inv (task_step h errmsg t s).
Proof.
  intros (Ha & Hr & P1 & P2 & P3). destruct t as [| |i]; cbn [task_step].
  - pose proof (script2_step_facts h errmsg (pc_script s) (world s)) as [(new & E & F) L].
    cbn zeta in E, F, L.
    destruct (script2_step h errmsg (pc_script s) (world s)) as [pc w'].
    cbn [snd] in E, F, L. unfold popup_inv. cbn [world pc_init]. rewrite E.
    assert (Nh : existsb is_handled new = false).
    { eapply forallb_not_existsb; [|exact F]. intros e He.
      apply negb_true_iff, orb_false_iff in He. tauto. }
    assert (Nr : existsb is_reconciled new = false).
    { eapply forallb_not_existsb; [|exact F]. intros e He.
      apply negb_true_iff, orb_false_iff in He. tauto. }
    split; [|split; [|split; [|split]]].
    + intros H. rewrite existsb_app, (Ha H). reflexivity.
    + intros H. destruct (L H) as [H' | H']; [|rewrite <- E; exact H'].
      rewrite existsb_app, (Hr H'). reflexivity.
    + apply precedes_quiet; assumption.
    + apply precedes_quiet; assumption.
    + apply precedes_quiet; assumption.
  - pose proof (init_step_facts h (pc_init s) (world s)) as (A & (new & E & Nh & Nr & C) & L).
    cbn zeta in A, E, C, L.
    destruct (init_step h (pc_init s) (world s)) as [pc w'].
    cbn [fst snd] in A, E, C, L. unfold popup_inv. cbn [world pc_init]. rewrite E.
    split; [|split; [|split; [|split]]].
    + intros H. destruct (A H) as [H' | H']; [|rewrite <- E; exact H'].
      rewrite existsb_app, (Ha H'). reflexivity.
    + intros H. rewrite existsb_app, (Hr (L H)). reflexivity.
    + apply precedes_app; [exact P1|]. intros H. apply Ha, C, H.
    + apply precedes_quiet; assumption.
    + apply precedes_quiet; assumption.
  - destruct (list_rows (script_list (world s)) !! i) as [r|] eqn:Er;
      [|split; [|split; [|split; [|split]]]; assumption].
    assert (Hrows : list_rows (script_list (world s)) <> []).
    { intros C. rewrite C in Er. discriminate. }
    destruct (toggle_row_rows i (world s)) as [Et Lt].
    unfold popup_inv. cbn [world pc_init].
    destruct (change_listener_attached (toggle_row i (world s))) eqn:At.
    + destruct (onCheckboxChange_quiet h i (emit (ChangeHandled i) (toggle_row i (world s))))
        as [(new & E & F) Ls].
      rewrite E, Ls. cbn [emit events script_list]. rewrite Et, <- app_assoc.
      unfold change_listener_attached in At. rewrite Et in At.
      split; [|split; [|split; [|split]]].
      * intros _. rewrite existsb_app, At. reflexivity.
      * intros _. rewrite existsb_app, (Hr Hrows). reflexivity.
      * apply precedes_after; assumption.
      * apply precedes_after; [exact P2 | exact (Hr Hrows)].
      * apply precedes_after; assumption.
    + rewrite Et. split; [exact Ha|]. split; [intros _; exact (Hr Hrows)|].
      split; [exact P1|]. split; [exact P2 | exact P3].
Qed.

Lemma popup_open_inv (st : Storage) (p : Page) :
  popup_inv {| pc_script := P2_start; pc_init := I_start; world := popup_open st p |}.
Proof.
  unfold popup_inv. cbn. split; [intros H; destruct H; reflexivity|].
  split; [intros H; destruct H; reflexivity|].
  split; [|split]; apply precedes_nil.
Qed.

Lemma popup_run_inv (h : Host) (errmsg : string) (sched : list Task) :
  forall s, popup_inv s -> popup_inv (fold_left (fun s t => task_step h errmsg t s) sched s).
Proof.
  induction sched as [|t sched IH]; intros s Hs; [exact Hs|].
  cbn [fold_left]. apply IH, task_step_inv, Hs.
Qed.

(** A task adds events and takes none away. *)
Lemma task_step_extends (h : Host) (errmsg : string) (t : Task) (s : Popup) :
  exists new, events (world (task_step h errmsg t s)) = events (world s) ++ new.
Proof.
  destruct t as [| |i]; cbn [task_step].
  - pose proof (script2_step_facts h errmsg (pc_script s) (world s)) as [(new & E & _) _].
    cbn zeta in E. destruct (script2_step h errmsg (pc_script s) (world s)) as [pc w'].
    exists new. exact E.
  - pose proof (init_step_facts h (pc_init s) (world s)) as (_ & (new & E & _) & _).
    cbn zeta in E. destruct (init_step h (pc_init s) (world s)) as [pc w'].
    exists new. exact E.
  - destruct (list_rows (script_list (world s)) !! i) as [r|];
      [|exists []; rewrite app_nil_r; reflexivity].
    destruct (toggle_row_rows i (world s)) as [Et _]. cbn [world].
    destruct (change_listener_attached (toggle_row i (world s))).
    + destruct (onCheckboxChange_quiet h i (emit (ChangeHandled i) (toggle_row i (world s))))
        as [(new & E & _) _].
      eexists. rewrite E. cbn [emit events]. rewrite Et, <- app_assoc. reflexivity.
    + exists []. rewrite app_nil_r. exact Et.
Qed.

Lemma attached_first_kept (h : Host) (errmsg : string) (sched : list Task) :
  forall s,
    existsb is_change_listener (events (world s)) = true ->
    precedes is_change_listener is_rendered (events (world s)) ->
    precedes is_change_listener is_inject (events (world s)) ->
    let evs := events (world (fold_left (fun s t => task_step h errmsg t s) sched s)) in
    existsb is_change_listener evs = true /\
    precedes is_change_listener is_rendered evs /\
    precedes is_change_listener is_inject evs.
Proof.
  induction sched as [|t sched IH]; intros s A P1 P2; [repeat split; assumption|].
  cbn [fold_left]. destruct (task_step_extends h errmsg t s) as [new E].
  apply IH; rewrite E.
  - rewrite existsb_app, A. reflexivity.
  - apply precedes_after; assumption.
  - apply precedes_after; assumption.
Qed.

(** C9, as the code has it.  [init] attaches the delegated change
    listener in its first, synchronous segment, so in every order of the
    popup's tasks the listener is on the list before [init] reads the
    stored map and reconciles the checkboxes, and a change is handled only
    after the listener is attached and after the list was filled (a
    checkbox exists only then).  When both scripts are loaded by the
    popup's markup, their first segments run before any host call returns:
    the listener is then attached before the injection and before the list
    is filled. *)
Theorem change_listener_comes_first (h : Host) (errmsg : string) (sched : list Task)
    (st : Storage) (p : Page) :
  let evs := events (world (popup_run h errmsg sched st p)) in
  precedes is_change_listener is_reconciled evs /\
  precedes is_rendered is_handled evs /\
  precedes is_change_listener is_handled evs /\
  (forall script_first : bool,
     let evs1 := events (world (popup_run h errmsg (dom_content_loaded script_first ++ sched)
                                  st p)) in
     existsb is_change_listener evs1 = true /\
     precedes is_change_listener is_rendered evs1 /\
     precedes is_change_listener is_inject evs1).
Proof.
  cbn zeta.
  pose proof (popup_run_inv h errmsg sched _ (popup_open_inv st p)) as (_ & _ & P1 & P2 & P3).
  split; [exact P1|]. split; [exact P2|]. split; [exact P3|].
  intros script_first. unfold popup_run. rewrite fold_left_app.
  apply attached_first_kept;
    [|apply precedes_none | apply precedes_none]; destruct script_first; reflexivity.
Qed.

(** C9, as the claim has it, fails.  On the page of the scenario, with the
    page script ahead of [init]: the change listener is attached before
    the list is filled, and the user's click on the first checkbox is
    handled before the reconciliation has run. *)
Lemma change_handled_before_reconcile :
  let h := example_host (Some 7%Z) false false in
  let sched := dom_content_loaded true ++ [RunScript; RunScript; UserToggle 0; RunInit; RunInit] in
  let evs := events (world (popup_run h "" sched empty_storage (example_page two_scripts))) in
  existsb is_rendered evs = true /\
  existsb is_reconciled evs = true /\
  first_before is_change_listener is_rendered evs = true /\
  first_before is_handled is_reconciled evs = true /\
  ~ precedes is_rendered is_change_listener evs /\
  ~ precedes is_reconciled is_handled evs.
Proof.
  cbn zeta.
  set (evs := events _).
  assert (E : evs = [CallTabsQuery; CHANGE_LISTENER; CallStorageGet STORAGE_KEY;
                     CallExecuteScript (Some 7%Z) ListScripts; Rendered;
                     AddListener "refresh-btn" "click"; ChangeHandled 0; CallTabsQuery;
                     CallStorageGet STORAGE_KEY; CallStorageSet STORAGE_KEY; CallTabsQuery;
                     CallExecuteScript (Some 7%Z) (RemoveScripts [X_JS]);
                     CallTabsQuery; Reconciled]) by (vm_compute; reflexivity).
  rewrite E. repeat (split; [reflexivity|]). split.
  - intros P. specialize (P [CallTabsQuery] CHANGE_LISTENER _ eq_refl eq_refl). discriminate.
  - intros P.
    specialize (P [CallTabsQuery; CHANGE_LISTENER; CallStorageGet STORAGE_KEY;
                   CallExecuteScript (Some 7%Z) ListScripts; Rendered;
                   AddListener "refresh-btn" "click"] (ChangeHandled 0) _ eq_refl eq_refl).
    discriminate.
Qed.

(** * Further properties of the code *)

(** ** The Block Store, entry by entry *)

Lemma setBlockedMap_failed (h : Host) (m : gmap string bool) (st : Storage) :
  set_fails h = true -> setBlockedMap h m st = st.
Proof.
  intros Hs. unfold setBlockedMap, storageSet, area_set. rewrite Hs.
  apply with_store_area_same.
Qed.

Lemma updateBlockedEntry_sets_one_entry_aux (h : Host) (st : Storage) (u : string) :
  get_fails h = false -> set_fails h = false ->
  getBlockedMap h (snd (updateBlockedEntry h u true st)) !! u = Some true /\
  getBlockedMap h (snd (updateBlockedEntry h u false st)) !! u = None.
Proof.
  intros Hg Hs. unfold updateBlockedEntry. cbn [snd].
  rewrite !getBlockedMap_set by assumption.
  split; [apply lookup_insert_eq | apply lookup_delete_eq].
Qed.

(** X1.  With a storage that answers, [updateBlockedEntry(u, b)] sets
    exactly the entry of [u]: afterwards the stored map has [u] at [true]
    when [b] holds and has no [u] otherwise, every other URL is as it was,
    and the map the call returns is the map the store holds. *)
Theorem updateBlockedEntry_sets_one_entry (h : Host) (st : Storage) (u : string) (b : bool) :
  get_fails h = false -> set_fails h = false ->
  let r := updateBlockedEntry h u b st in
  getBlockedMap h (snd r) !! u = (if b then Some true else None) /\
  (forall v, v <> u -> getBlockedMap h (snd r) !! v = getBlockedMap h st !! v) /\
  fst r = getBlockedMap h (snd r).
Proof.
  intros Hg Hs. cbn zeta. unfold updateBlockedEntry. cbn [fst snd].
  rewrite getBlockedMap_set by assumption. destruct b.
  - split; [apply lookup_insert_eq|]. split; [|reflexivity].
    intros v Hv. apply lookup_insert_ne. congruence.
  - split; [apply lookup_delete_eq|]. split; [|reflexivity].
    intros v Hv. apply lookup_delete_ne. congruence.
Qed.

Lemma updateBlockedEntry_sets_one_entry_witness :
  let h := example_host (Some 7%Z) false false in
  let st := {| session := {[ STORAGE_KEY := VMap {[ Y_JS := true ]} ]}; local := ∅ |} in
  getBlockedMap h (snd (updateBlockedEntry h X_JS true st)) !! X_JS = Some true /\
  getBlockedMap h (snd (updateBlockedEntry h Y_JS false st)) !! Y_JS = None.
Proof.
  cbn zeta. split.
  - apply (updateBlockedEntry_sets_one_entry (example_host (Some 7%Z) false false)
             {| session := {[ STORAGE_KEY := VMap {[ Y_JS := true ]} ]}; local := ∅ |}
             X_JS true eq_refl eq_refl).
  - apply (updateBlockedEntry_sets_one_entry (example_host (Some 7%Z) false false)
             {| session := {[ STORAGE_KEY := VMap {[ Y_JS := true ]} ]}; local := ∅ |}
             Y_JS false eq_refl eq_refl).
Defined.

(** X2.  With a storage that answers, repeating an update changes nothing
    more: blocking a blocked URL, or unblocking a URL that is not blocked,
    leaves the stored map as the first call left it. *)
Theorem updateBlockedEntry_idempotent (h : Host) (st : Storage) (u : string) (b : bool) :
  get_fails h = false -> set_fails h = false ->
  let once := snd (updateBlockedEntry h u b st) in
  let twice := snd (updateBlockedEntry h u b once) in
  getBlockedMap h twice = getBlockedMap h once /\
  store_area h twice = store_area h once.
Proof.
  intros Hg Hs. cbn zeta. unfold updateBlockedEntry. cbn [snd].
  rewrite !getBlockedMap_set by assumption.
  assert (E : (if b then <[ u := true ]> (if b then <[ u := true ]> (getBlockedMap h st)
                                          else delete u (getBlockedMap h st))
               else delete u (if b then <[ u := true ]> (getBlockedMap h st)
                              else delete u (getBlockedMap h st)))
              = (if b then <[ u := true ]> (getBlockedMap h st)
                 else delete u (getBlockedMap h st))).
  { destruct b; [apply insert_insert_eq | apply delete_delete_eq]. }
  rewrite E. split; [reflexivity|].
  unfold setBlockedMap, storageSet, area_set. rewrite Hs, !store_area_with.
  apply map_eq. intros k. rewrite !lookup_union. 
  destruct (decide (k = STORAGE_KEY)) as [-> | Hk].
  - rewrite !lookup_singleton_eq. rewrite !union_Some_l. reflexivity.
  - rewrite !lookup_singleton_ne by congruence. rewrite !(left_id None _). reflexivity.
Qed.

Lemma updateBlockedEntry_idempotent_witness :
  let h := example_host (Some 7%Z) false false in
  let once := snd (updateBlockedEntry h X_JS true empty_storage) in
  getBlockedMap h (snd (updateBlockedEntry h X_JS true once)) = getBlockedMap h once.
Proof.
  cbn zeta.
  apply (updateBlockedEntry_idempotent (example_host (Some 7%Z) false false)
           empty_storage X_JS true eq_refl eq_refl).
Defined.

(** X3.  With a storage that answers, updates of two different URLs can
    be made in either order: the stored map is the same. *)
Theorem updateBlockedEntry_commute (h : Host) (st : Storage) (u v : string) (b c : bool) :
  get_fails h = false -> set_fails h = false -> u <> v ->
  getBlockedMap h (snd (updateBlockedEntry h v c (snd (updateBlockedEntry h u b st))))
  = getBlockedMap h (snd (updateBlockedEntry h u b (snd (updateBlockedEntry h v c st)))).
Proof.
  intros Hg Hs Huv. unfold updateBlockedEntry. cbn [snd].
  rewrite !getBlockedMap_set by assumption.
  apply map_eq. intros k.
  destruct b, c; rewrite ?lookup_insert, ?lookup_delete;
    repeat case_decide; subst; try congruence;
    rewrite ?lookup_insert, ?lookup_delete; repeat case_decide; congruence.
Qed.

Lemma updateBlockedEntry_commute_witness :
  let h := example_host (Some 7%Z) false false in
  getBlockedMap h (snd (updateBlockedEntry h Y_JS true
                          (snd (updateBlockedEntry h X_JS true empty_storage))))
  = getBlockedMap h (snd (updateBlockedEntry h X_JS true
                            (snd (updateBlockedEntry h Y_JS true empty_storage)))).
Proof.
  cbn zeta.
  apply (updateBlockedEntry_commute (example_host (Some 7%Z) false false)
           empty_storage X_JS Y_JS true true eq_refl eq_refl).
  discriminate.
Defined.

Lemma store_area_other (h h' : Host) (a : gmap string JVal) (st : Storage) :
  has_session h' = negb (has_session h) ->
  store_area h' (with_store_area h a st) = store_area h' st.
Proof.
  intros E. unfold store_area, with_store_area. rewrite E.
  destruct (has_session h); reflexivity.
Qed.

(** X4.  The Block Store keeps to one storage area.  With a session area
    it never changes the local area, without one it never changes the
    session area; and what is written on one side is not seen from the
    other: for a host that uses the other area, the Blocked Map is what it
    was before the update. *)
Theorem block_store_keeps_to_its_area (h h' : Host) (st : Storage) (u : string) (b : bool) :
  (has_session h = true -> local (snd (updateBlockedEntry h u b st)) = local st) /\
  (has_session h = false -> session (snd (updateBlockedEntry h u b st)) = session st) /\
  (has_session h' = negb (has_session h) ->
   getBlockedMap h' (snd (updateBlockedEntry h u b st)) = getBlockedMap h' st).
Proof.
  unfold updateBlockedEntry, setBlockedMap, storageSet. cbn [snd].
  split; [|split].
  - intros E. unfold with_store_area. rewrite E. reflexivity.
  - intros E. unfold with_store_area. rewrite E. reflexivity.
  - intros E. unfold getBlockedMap, storageGet. rewrite (store_area_other h h') by exact E.
    reflexivity.
Qed.

Lemma block_store_keeps_to_its_area_witness :
  let h := example_host (Some 7%Z) false false in
  let h' := {| URL_href := example_URL_href; active_tab := None; popup_href := "";
               has_session := false; get_fails := false; set_fails := false;
               remove_fails := false |} in
  local (snd (updateBlockedEntry h X_JS true empty_storage)) = ∅ /\
  getBlockedMap h (snd (updateBlockedEntry h X_JS true empty_storage)) !! X_JS = Some true /\
  getBlockedMap h' (snd (updateBlockedEntry h X_JS true empty_storage)) = ∅.
Proof.
  cbn zeta.
  destruct (block_store_keeps_to_its_area (example_host (Some 7%Z) false false)
              {| URL_href := example_URL_href; active_tab := None; popup_href := "";
                 has_session := false; get_fails := false; set_fails := false;
                 remove_fails := false |}
              empty_storage X_JS true) as (Hl & _ & Hx).
  split; [exact (Hl eq_refl)|]. split; [vm_compute; reflexivity|].
  exact (Hx eq_refl).
Defined.

(** X5.  With a storage that answers, [storageRemoveKey(key)] followed by
    [storageGet(key)] gives the empty object, whatever was stored under
    [key]; every other record of the area stays.  For the key of the
    Blocked Map this empties the map. *)
Theorem storageRemoveKey_then_get (h : Host) (st : Storage) (key : string) :
  get_fails h = false -> remove_fails h = false ->
  storageGet h key (storageRemoveKey h key st) = ∅ /\
  (forall k, k <> key ->
     storageGet h k (storageRemoveKey h key st) = storageGet h k st) /\
  (key = STORAGE_KEY -> getBlockedMap h (storageRemoveKey h key st) = ∅).
Proof.
  intros Hg Hr.
  assert (A : store_area h (storageRemoveKey h key st) = delete key (store_area h st)).
  { unfold storageRemoveKey, area_remove. rewrite Hr. apply store_area_with. }
  assert (G : storageGet h key (storageRemoveKey h key st) = ∅).
  { unfold storageGet, area_get. rewrite Hg, A, lookup_delete_eq. reflexivity. }
  split; [exact G|]. split.
  - intros k Hk. unfold storageGet, area_get. rewrite Hg, A.
    rewrite lookup_delete_ne by congruence. reflexivity.
  - intros ->. unfold getBlockedMap. rewrite G, lookup_empty. reflexivity.
Qed.

Lemma storageRemoveKey_then_get_witness :
  let h := example_host (Some 7%Z) false false in
  let st := {| session := {[ STORAGE_KEY := VMap {[ Y_JS := true ]} ]}; local := ∅ |} in
  getBlockedMap h st !! Y_JS = Some true /\
  getBlockedMap h (storageRemoveKey h STORAGE_KEY st) = ∅.
Proof.
  cbn zeta. split; [reflexivity|].
  destruct (storageRemoveKey_then_get (example_host (Some 7%Z) false false)
              {| session := {[ STORAGE_KEY := VMap {[ Y_JS := true ]} ]}; local := ∅ |}
              STORAGE_KEY eq_refl eq_refl) as (_ & _ & H).
  exact (H eq_refl).
Defined.

(** ** The checkbox handler and the page *)

(** What a change on the checkbox of a row does to the page: the probe
    runs when the row is checked, its key is not empty, the active tab has
    a truthy id and the page lets the extension in; in every other case the
    page is as it was. *)
Lemma onCheckboxChange_page (h : Host) (i : nat) (w : World) (r : Row) :
  list_rows (script_list w) !! i = Some r ->
  page (onCheckboxChange h i w)
  = if truthy_str (getUrlFromCheckbox h r) && row_checked r &&
       match active_tab h with
       | Some tab => truthy_id (tab_id tab) && can_inject h (tab_id tab) w
       | None => false
       end
    then probe h [getUrlFromCheckbox h r] (page w)
    else page w.
Proof.
  intros Er. unfold onCheckboxChange. rewrite Er.
  destruct (truthy_str (getUrlFromCheckbox h r)); cbn [negb andb]; [|reflexivity].
  destruct (updateBlockedEntry h (getUrlFromCheckbox h r) (row_checked r) _) as [m st].
  destruct (row_checked r); cbn [andb].
  - destruct (active_tab h) as [tab|]; [|reflexivity].
    destruct (tab_id tab) as [z|] eqn:Ez; [|reflexivity].
    unfold removeScriptsInTab. cbn [length Nat.eqb orb].
    destruct (truthy_id (Some z)); cbn [negb orb andb]; [|reflexivity].
    rewrite can_inject_emit.
    change (can_inject h (Some z) (emit CallTabsQuery (set_store st
              (emit (CallStorageSet STORAGE_KEY)
                 (emit (CallStorageGet STORAGE_KEY) (emit CallTabsQuery w))))))
      with (can_inject h (Some z) w).
    destruct (can_inject h (Some z) w); reflexivity.
  - destruct (active_tab h) as [tab|]; [|reflexivity].
    destruct (tab_id tab); reflexivity.
Qed.

Lemma onCheckboxChange_events (h : Host) (i : nat) (w : World) (r : Row) :
  list_rows (script_list w) !! i = Some r ->
  truthy_str (getUrlFromCheckbox h r) = true ->
  events (onCheckboxChange h i w)
  = events w ++ [CallTabsQuery; CallStorageGet STORAGE_KEY; CallStorageSet STORAGE_KEY;
                 CallTabsQuery]
    ++ match active_tab h with
       | Some tab =>
           if row_checked r && truthy_id (tab_id tab) then
             CallExecuteScript (tab_id tab) (RemoveScripts [getUrlFromCheckbox h r])
             :: (if can_inject h (tab_id tab) w then []
                 else [ConsoleWarn "removeScriptsInTab error:"])
           else []
       | None => []
       end.
Proof.
  intros Er Ek. unfold onCheckboxChange. rewrite Er, Ek. cbn [negb].
  destruct (updateBlockedEntry h (getUrlFromCheckbox h r) (row_checked r) _) as [m st].
  set (w4 := emit CallTabsQuery (set_store st _)).
  assert (E4 : events w4
               = events w ++ [CallTabsQuery; CallStorageGet STORAGE_KEY;
                              CallStorageSet STORAGE_KEY; CallTabsQuery]).
  { unfold w4. cbn [emit set_store events]. rewrite <- !app_assoc. reflexivity. }
  assert (P4 : forall id, can_inject h id w4 = can_inject h id w) by reflexivity.
  clearbody w4.
  destruct (active_tab h) as [tab|]; [|rewrite E4, app_nil_r; reflexivity].
  destruct (tab_id tab) as [z|] eqn:Ez;
    [|rewrite E4, andb_false_r, app_nil_r; reflexivity].
  destruct (row_checked r); cbn [andb]; [|rewrite E4, app_nil_r; reflexivity].
  unfold removeScriptsInTab. cbn [length Nat.eqb orb].
  destruct (truthy_id (Some z)); cbn [negb orb]; [|rewrite E4, app_nil_r; reflexivity].
  rewrite can_inject_emit, P4.
  destruct (can_inject h (Some z) w); cbn [set_page emit events]; rewrite E4;
    rewrite <- !app_assoc; reflexivity.
Qed.

(** X6.  Unchecking a box, or a change in a popup whose active tab has no
    usable id (no tab, no id, or the id 0), never reaches the page: the
    page is as it was and no [executeScript] call is made.  The entry is
    written to the storage all the same. *)
Theorem change_without_injection (h : Host) (i : nat) (w : World) (r : Row) :
  list_rows (script_list w) !! i = Some r ->
  truthy_str (getUrlFromCheckbox h r) = true ->
  row_checked r = false \/ guarded_id h = None ->
  page (onCheckboxChange h i w) = page w /\
  events (onCheckboxChange h i w)
  = events w ++ [CallTabsQuery; CallStorageGet STORAGE_KEY; CallStorageSet STORAGE_KEY;
                 CallTabsQuery] /\
  store (onCheckboxChange h i w)
  = snd (updateBlockedEntry h (getUrlFromCheckbox h r) (row_checked r) (store w)).
Proof.
  intros Er Ek Hc.
  assert (Hoff : row_checked r &&
                 match active_tab h with
                 | Some tab => truthy_id (tab_id tab)
                 | None => false
                 end = false).
  { destruct Hc as [Hc | Hc]; [rewrite Hc; reflexivity|].
    unfold guarded_id in Hc. destruct (active_tab h) as [tab|]; [|apply andb_false_r].
    destruct (truthy_id (tab_id tab)) eqn:Et; [|apply andb_false_r].
    destruct (tab_id tab); [discriminate Hc | discriminate Et]. }
  split; [|split].
  - rewrite (onCheckboxChange_page h i w r Er), Ek. cbn [andb].
    destruct (row_checked r); [|reflexivity]. cbn [andb] in *.
    destruct (active_tab h) as [tab|]; [|reflexivity]. rewrite Hoff. reflexivity.
  - rewrite (onCheckboxChange_events h i w r Er Ek).
    destruct (active_tab h) as [tab|]; [|rewrite app_nil_r; reflexivity].
    rewrite Hoff, app_nil_r. reflexivity.
  - apply onCheckboxChange_writes; assumption.
Qed.

Lemma change_without_injection_witness :
  let h := example_host (Some 0%Z) false false in
  let w := example_world empty_storage two_scripts [set_checked true (row_v2 X_JS)] in
  guarded_id h = None /\
  page (onCheckboxChange h 0 w) = page w /\
  getBlockedMap h (store (onCheckboxChange h 0 w)) !! X_JS = Some true.
Proof.
  cbn zeta. split; [reflexivity|].
  destruct (change_without_injection (example_host (Some 0%Z) false false) 0
              (example_world empty_storage two_scripts [set_checked true (row_v2 X_JS)])
              (set_checked true (row_v2 X_JS)) eq_refl eq_refl (or_intror eq_refl))
    as (Hp & _ & _).
  split; [exact Hp | vm_compute; reflexivity].
Defined.

(** X7.  A write that fails does not stop the removal.  When the storage
    refuses the write behind a checked box, the storage is as it was, and
    the probe still runs in the tab: the script is taken out of the page
    although nothing records it as blocked. *)
Theorem failed_write_still_removes (h : Host) (i : nat) (w : World) (r : Row) (tab : Tab) :
  set_fails h = true ->
  list_rows (script_list w) !! i = Some r ->
  truthy_str (getUrlFromCheckbox h r) = true ->
  row_checked r = true ->
  active_tab h = Some tab -> truthy_id (tab_id tab) = true ->
  can_inject h (tab_id tab) w = true ->
  store (onCheckboxChange h i w) = store w /\
  page (onCheckboxChange h i w) = probe h [getUrlFromCheckbox h r] (page w).
Proof.
  intros Hs Er Ek Hc Ht Hid Hi. split.
  - rewrite (onCheckboxChange_writes h i w r Er Ek). unfold updateBlockedEntry. cbn [snd].
    apply setBlockedMap_failed, Hs.
  - rewrite (onCheckboxChange_page h i w r Er), Ek, Hc, Ht, Hid, Hi. reflexivity.
Qed.

Lemma failed_write_still_removes_witness :
  let h := example_host (Some 7%Z) false true in
  let w := example_world empty_storage two_scripts [set_checked true (row_v2 X_JS)] in
  store (onCheckboxChange h 0 w) = store w /\
  map src (script_elements (document (page (onCheckboxChange h 0 w)))) = [Y_JS; ""].
Proof.
  cbn zeta.
  destruct (failed_write_still_removes (example_host (Some 7%Z) false true) 0
              (example_world empty_storage two_scripts [set_checked true (row_v2 X_JS)])
              (set_checked true (row_v2 X_JS)) (example_tab (Some 7%Z))
              eq_refl eq_refl eq_refl eq_refl eq_refl eq_refl eq_refl) as [Hs Hp].
  split; [exact Hs|]. rewrite Hp. reflexivity.
Defined.

(** X8.  A page that refuses the injection (a browser page, the store)
    costs nothing but a warning: with a storage that answers, checking the
    box stores the entry, the page is as it was, and the handler's last
    two events are the refused [executeScript] call and one
    [console.warn]. *)
Theorem refused_injection_is_logged (h : Host) (i : nat) (w : World) (r : Row) (tab : Tab) :
  get_fails h = false -> set_fails h = false ->
  list_rows (script_list w) !! i = Some r ->
  truthy_str (getUrlFromCheckbox h r) = true ->
  row_checked r = true ->
  active_tab h = Some tab -> truthy_id (tab_id tab) = true ->
  can_inject h (tab_id tab) w = false ->
  let key := getUrlFromCheckbox h r in
  getBlockedMap h (store (onCheckboxChange h i w)) !! key = Some true /\
  page (onCheckboxChange h i w) = page w /\
  events (onCheckboxChange h i w)
  = events w ++ [CallTabsQuery; CallStorageGet STORAGE_KEY; CallStorageSet STORAGE_KEY;
                 CallTabsQuery; CallExecuteScript (tab_id tab) (RemoveScripts [key]);
                 ConsoleWarn "removeScriptsInTab error:"].
Proof.
  intros Hg Hs Er Ek Hc Ht Hid Hi. cbn zeta. split; [|split].
  - rewrite (onCheckboxChange_writes h i w r Er Ek), Hc.
    destruct (updateBlockedEntry_sets_one_entry_aux h (store w) (getUrlFromCheckbox h r) Hg Hs)
      as [H _]. exact H.
  - rewrite (onCheckboxChange_page h i w r Er), Ek, Hc, Ht, Hid, Hi. reflexivity.
  - rewrite (onCheckboxChange_events h i w r Er Ek), Ht, Hc, Hid, Hi.
    reflexivity.
Qed.

Lemma refused_injection_is_logged_witness :
  let h := example_host (Some 7%Z) false false in
  let w := {| store := empty_storage; page := restricted_page two_scripts;
              script_list := {| list_html := "";
                                list_rows := [set_checked true (row_v2 X_JS)] |};
              events := [] |} in
  can_inject h (Some 7%Z) w = false /\
  getBlockedMap h (store (onCheckboxChange h 0 w)) !! X_JS = Some true /\
  page (onCheckboxChange h 0 w) = page w.
Proof.
  cbn zeta. split; [reflexivity|].
  destruct (refused_injection_is_logged (example_host (Some 7%Z) false false) 0
              {| store := empty_storage; page := restricted_page two_scripts;
                 script_list := {| list_html := "";
                                   list_rows := [set_checked true (row_v2 X_JS)] |};
                 events := [] |}
              (set_checked true (row_v2 X_JS)) (example_tab (Some 7%Z))
              eq_refl eq_refl eq_refl eq_refl eq_refl eq_refl eq_refl eq_refl)
    as (Hm & Hp & _).
  split; [exact Hm | exact Hp].
Defined.

(** ** The probe in the page *)

Lemma remove_existing_unmatched (h : Host) (href : string) (bset : list string)
    (doc : list node) :
  (forall s, In s (script_elements doc) -> blocked_src h href bset s = false) ->
  remove_existing h href bset doc = doc.
Proof.
  assert (F : forall (l d : list node),
             (forall s, In s l -> blocked_src h href bset s = false) ->
             fold_left (fun d s => if blocked_src h href bset s
                                   then remove_node (nid s) d else d) l d = d).
  { induction l as [|s l IH]; intros d H; [reflexivity|].
    cbn [fold_left]. rewrite (H s) by (left; reflexivity).
    apply IH. intros s' Hs'. apply H. right. exact Hs'. }
  intros H. unfold remove_existing. apply F, H.
Qed.

(** X9.  A probe whose blocked list matches no script of the page leaves
    the document as it is: scripts with another source, inline scripts and
    everything that is not a script stay in place.  The observer is
    installed all the same. *)
Theorem probe_without_match (h : Host) (urls : list string) (p : Page) :
  (forall s, In s (script_elements (document p)) ->
             src s = "" \/
             ~ In (abs h (location_href p) (src s)) (map (abs h (location_href p)) urls)) ->
  document (probe h urls p) = document p /\
  observers (probe h urls p) = observers p ++ [blockedSet h (location_href p) urls].
Proof.
  intros H. split; [|reflexivity]. cbn [probe document].
  apply remove_existing_unmatched. intros s Hs. unfold blocked_src.
  destruct (H s Hs) as [E | N]; [rewrite E; reflexivity|].
  destruct (truthy_str (src s)); [|reflexivity]. cbn [andb].
  apply not_true_is_false. intros C. apply N. unfold has in C.
  apply existsb_exists in C as (x & Hx & Ex). apply String.eqb_eq in Ex. subst x. exact Hx.
Qed.

Lemma probe_without_match_witness :
  let h := example_host (Some 7%Z) false false in
  let p := example_page two_scripts in
  document (probe h ["https://cdn.c/z.js"] p) = document p.
Proof.
  cbn zeta.
  apply (probe_without_match (example_host (Some 7%Z) false false)
           ["https://cdn.c/z.js"] (example_page two_scripts)).
  intros s Hs. vm_compute in Hs.
  destruct Hs as [<- | [<- | [<- | []]]].
  - right. vm_compute. intros [C | []]. discriminate.
  - right. vm_compute. intros [C | []]. discriminate.
  - left. reflexivity.
Defined.

(** X10.  Running the probe a second time with the same list takes
    nothing more out of the document, in a document whose nodes are told
    apart by their identity; each run leaves one more observer on the
    page. *)
Theorem probe_twice (h : Host) (urls : list string) (p : Page) :
  NoDup (map nid (nodes (document p))) ->
  document (probe h urls (probe h urls p)) = document (probe h urls p) /\
  length (observers (probe h urls (probe h urls p))) = 2 + length (observers p).
Proof.
  intros Hnd. split.
  - cbn [probe document location_href].
    apply remove_existing_unmatched. intros s Hs.
    apply (probe_leaves_no_blocked_script h urls p s Hnd). exact Hs.
  - cbn [probe observers location_href]. rewrite !length_app. cbn. lia.
Qed.

Lemma probe_twice_witness :
  let h := example_host (Some 7%Z) false false in
  let p := example_page two_scripts in
  NoDup (map nid (nodes (document p))) /\
  document (probe h [X_JS] (probe h [X_JS] p)) = document (probe h [X_JS] p).
Proof.
  cbn zeta.
  assert (Hnd : NoDup (map nid (nodes (document (example_page two_scripts))))).
  { apply (bool_decide_unpack _). vm_compute. exact I. }
  split; [exact Hnd|].
  apply (probe_twice (example_host (Some 7%Z) false false) [X_JS] (example_page two_scripts) Hnd).
Defined.

Lemma remove_node_fresh (i : nat) (doc : list node) :
  (forall m, In m (nodes doc) -> nid m <> i) -> remove_node i doc = doc.
Proof.
  intros H. rewrite remove_node_prune. apply prune_none.
  intros m Hm. apply Nat.eqb_neq. intros E. apply (H m Hm). symmetry. exact E.
Qed.

Lemma remove_node_app (i : nat) (a b : list node) :
  remove_node i (a ++ b) = remove_node i a ++ remove_node i b.
Proof. unfold remove_node. rewrite map_app, concat_app. reflexivity. Qed.

Lemma remove_node_self (n : node) : remove_node (nid n) [n] = [].
Proof. destruct n as [j t s cs]. unfold remove_node. cbn. rewrite Nat.eqb_refl. reflexivity. Qed.

(** X11.  The observer does its work on a script element that the page
    inserts directly.  For a script element with a fresh identity: when
    some installed observer holds its resolved source, the document after
    the insertion is the document before it; when none does, the element
    is the document's last child. *)
Theorem direct_insert_is_undone (h : Host) (n : node) (p : Page) :
  is_script n = true ->
  (forall m, In m (nodes (document p)) -> nid m <> nid n) ->
  document (page_inserts h n p)
  = if existsb (fun bset => blocked_src h (location_href p) bset n) (observers p)
    then document p
    else document p ++ [n].
Proof.
  intros Hs Hf. unfold page_inserts. cbn [document].
  set (cb := fun d bset =>
               observer_callback h (location_href p) bset [ {| addedNodes := [n] |} ] d).
  assert (Hcb : forall d bset,
             cb d bset = if blocked_src h (location_href p) bset n
                         then remove_node (nid n) d else d).
  { intros d bset. unfold cb. rewrite observer_callback_one, Hs. reflexivity. }
  assert (Hout : remove_node (nid n) (document p) = document p)
    by (apply remove_node_fresh, Hf).
  assert (Hin : remove_node (nid n) (document p ++ [n]) = document p)
    by (rewrite remove_node_app, Hout, remove_node_self, app_nil_r; reflexivity).
  assert (Hgone : forall obs, fold_left cb obs (document p) = document p).
  { induction obs as [|bset obs IH]; [reflexivity|]. cbn [fold_left]. rewrite Hcb.
    destruct (blocked_src h (location_href p) bset n); [rewrite Hout|]; exact IH. }
  induction (observers p) as [|bset obs IH]; [reflexivity|].
  cbn [fold_left existsb]. rewrite Hcb.
  destruct (blocked_src h (location_href p) bset n); cbn [orb].
  - rewrite Hin. apply Hgone.
  - exact IH.
Qed.

Lemma direct_insert_is_undone_witness :
  let h := example_host (Some 7%Z) false false in
  let p := probe h [X_JS] (example_page two_scripts) in
  document (page_inserts h (script_node 9 X_JS) p) = document p /\
  document (page_inserts h (script_node 9 Y_JS) p) = document p ++ [script_node 9 Y_JS].
Proof.
  cbn zeta.
  assert (F : forall m,
             In m (nodes (document (probe (example_host (Some 7%Z) false false) [X_JS]
                                      (example_page two_scripts)))) ->
             nid m <> 9).
  { intros m Hm. vm_compute in Hm. decompose [or] Hm; subst; try discriminate; contradiction. }
  split.
  - apply (direct_insert_is_undone (example_host (Some 7%Z) false false)
             (script_node 9 X_JS) _ eq_refl F).
  - apply (direct_insert_is_undone (example_host (Some 7%Z) false false)
             (script_node 9 Y_JS) _ eq_refl F).
Defined.

(** ** The popup scripts *)

Lemma same_refl (w : World) : same_store_and_page w w.
Proof. split; reflexivity. Qed.

Lemma same_trans (w w1 w2 : World) :
  same_store_and_page w w1 -> same_store_and_page w1 w2 -> same_store_and_page w w2.
Proof. intros [A B] [C D]. split; congruence. Qed.

Lemma render_same (row : string -> Row) (scripts : list string) (w : World) :
  same_store_and_page w (render row scripts w).
Proof. exact (render_frame row scripts w). Qed.

Lemma restore_same (h : Host) (key : string) (w : World) :
  same_store_and_page w (restore h key w).
Proof.
  unfold restore. destruct (area_get (get_fails h) key (local (store w))); split; reflexivity.
Qed.

Lemma script1_step_same (h : Host) (throws : bool) (pc : Pc1) (w : World) :
  same_store_and_page w (snd (script1_step h throws pc w)).
Proof.
  destruct pc as [| |tab|]; cbn [script1_step snd]; try (split; reflexivity).
  - destruct (active_tab h) as [tab|]; [|(split; reflexivity)].
    destruct (tab_id tab); [|destruct throws]; (split; reflexivity).
  - apply render_same.
Qed.

Lemma script2_step_same (h : Host) (errmsg : string) (pc : Pc2) (w : World) :
  same_store_and_page w (snd (script2_step h errmsg pc w)).
Proof.
  destruct pc as [| |id|id|]; cbn [script2_step snd]; try (split; reflexivity).
  - destruct (guarded_id h); (split; reflexivity).
  - destruct (inject_list h (Some id) w) as [scripts|]; [|(split; reflexivity)].
    destruct (length scripts =? 0)%nat; cbn [snd];
      [apply render_same|].
    destruct (render_same row_v2 scripts w) as [A B]. split; cbn; assumption.
Qed.

Lemma script3_step_same (h : Host) (errmsg : string) (pc : Pc2) (w : World) :
  same_store_and_page w (snd (script3_step h errmsg pc w)).
Proof.
  destruct pc as [| |id|id|]; cbn [script3_step snd]; try (split; reflexivity).
  - destruct (guarded_id h); (split; reflexivity).
  - destruct (inject_list h (Some id) w) as [scripts|]; [|(split; reflexivity)].
    destruct (length scripts =? 0)%nat; cbn [snd]; [apply render_same|].
    destruct (render_same row_v3 scripts w) as [A B]. split; cbn; assumption.
  - apply restore_same.
Qed.

Lemma run_steps_same {Pc : Type} (step : Pc -> World -> Pc * World) (n : nat) :
  (forall pc w, same_store_and_page w (snd (step pc w))) ->
  forall pc w, same_store_and_page w (snd (run_steps step n pc w)).
Proof.
  intros H. induction n as [|n IH]; intros pc w; [apply same_refl|].
  cbn [run_steps]. pose proof (H pc w) as H1. destruct (step pc w) as [pc' w'].
  cbn [snd] in H1. eapply same_trans; [exact H1 | apply IH].
Qed.

(** X12.  Listing is read-only.  Whatever the tab and the page, none of
    the three popup scripts changes the storage or the tab's page between
    [DOMContentLoaded] and its last callback: the probe only reads the
    document, and the restore only reads the stored record. *)
Theorem listing_is_read_only (h : Host) (throws : bool) (errmsg : string) (w : World) :
  same_store_and_page w (script1 h throws w) /\
  same_store_and_page w (script2 h errmsg w) /\
  same_store_and_page w (script3 h errmsg w).
Proof.
  split; [|split].
  - apply run_steps_same, script1_step_same.
  - apply run_steps_same, script2_step_same.
  - apply run_steps_same, script3_step_same.
Qed.

Lemma append_empty_r (s : string) : s +:+ "" = s.
Proof.
  induction s as [|c s IH]; [reflexivity|].
  change (String c (s +:+ "") = String c s). f_equal. exact IH.
Qed.

Lemma append_assoc_str (a b c : string) : (a +:+ b) +:+ c = a +:+ (b +:+ c).
Proof.
  induction a as [|x a IH]; [reflexivity|].
  change (String x ((a +:+ b) +:+ c) = String x (a +:+ (b +:+ c))). f_equal. exact IH.
Qed.

Lemma has_slash_app (a b : string) : has_slash (a +:+ b) = has_slash a || has_slash b.
Proof.
  induction a as [|c a IH]; [reflexivity|].
  change (Ascii.eqb c "/"%char || has_slash (a +:+ b)
          = Ascii.eqb c "/"%char || has_slash a || has_slash b).
  rewrite IH. apply orb_assoc.
Qed.

Lemma last_segment_no_slash (s : string) :
  forall acc, has_slash acc = false -> has_slash (last_segment_from acc s) = false.
Proof.
  induction s as [|c s IH]; intros acc Ha; [exact Ha|].
  cbn [last_segment_from]. destruct (Ascii.eqb c "/"%char) eqn:Ec.
  - apply IH. reflexivity.
  - apply IH. rewrite has_slash_app, Ha. cbn. rewrite Ec. reflexivity.
Qed.

Lemma last_segment_suffix (s : string) :
  forall acc, exists pre, acc +:+ s = pre +:+ last_segment_from acc s.
Proof.
  induction s as [|c s IH]; intros acc.
  - exists "". change (acc +:+ "" = acc). apply append_empty_r.
  - cbn [last_segment_from]. destruct (Ascii.eqb c "/"%char).
    + destruct (IH "") as [pre E]. exists (acc +:+ String c pre).
      rewrite append_assoc_str.
      change (acc +:+ String c ("" +:+ s)
              = acc +:+ String c (pre +:+ last_segment_from "" s)).
      rewrite E. reflexivity.
    + destruct (IH (acc +:+ String c "")) as [pre E]. exists pre.
      rewrite <- E, append_assoc_str. reflexivity.
Qed.

Lemma last_segment_plain (s : string) :
  forall acc, has_slash s = false -> last_segment_from acc s = acc +:+ s.
Proof.
  induction s as [|c s IH]; intros acc Hs; [symmetry; apply append_empty_r|].
  change (Ascii.eqb c "/"%char || has_slash s = false) in Hs.
  apply orb_false_iff in Hs as [Hc Hs]. cbn [last_segment_from]. rewrite Hc.
  rewrite IH by exact Hs. apply append_assoc_str.
Qed.

Lemma last_segment_after_slash (a b : string) :
  forall acc, last_segment_from acc (a +:+ "/" +:+ b) = last_segment_from "" b.
Proof.
  induction a as [|c a IH]; intros acc; [reflexivity|].
  change (String c a +:+ "/" +:+ b) with (String c (a +:+ "/" +:+ b)).
  cbn [last_segment_from]. destruct (Ascii.eqb c "/"%char); apply IH.
Qed.

(** X13.  The name shown for a script is what follows the last slash of
    its URL: [src.split("/").pop()] holds no slash, the URL ends with it,
    a URL without a slash is its own name, and the name of [a/b] is [b]
    whenever [b] holds no slash; so a URL that ends with a slash has the
    empty name. *)
Theorem split_pop_is_the_last_segment (src : string) :
  has_slash (split_pop src) = false /\
  (exists pre, src = pre +:+ split_pop src) /\
  (has_slash src = false -> split_pop src = src) /\
  (forall a b, src = a +:+ "/" +:+ b -> has_slash b = false -> split_pop src = b) /\
  (forall a, src = a +:+ "/" -> split_pop src = "").
Proof.
  unfold split_pop. split; [apply last_segment_no_slash; reflexivity|].
  split; [apply (last_segment_suffix src "")|].
  split; [intros H; apply (last_segment_plain src "" H)|].
  split.
  - intros a b -> Hb. rewrite last_segment_after_slash. apply (last_segment_plain b "" Hb).
  - intros a ->. rewrite <- (append_empty_r "/"), last_segment_after_slash. reflexivity.
Qed.

Lemma split_pop_is_the_last_segment_witness :
  split_pop "https://cdn.a/lib/x.js" = "x.js" /\ split_pop "https://cdn.a/lib/" = "".
Proof.
  destruct (split_pop_is_the_last_segment "https://cdn.a/lib/x.js")
    as (_ & _ & _ & H1 & _).
  destruct (split_pop_is_the_last_segment "https://cdn.a/lib/") as (_ & _ & _ & _ & H2).
  split.
  - apply (H1 "https://cdn.a/lib" "x.js"); reflexivity.
  - apply (H2 "https://cdn.a/lib"). reflexivity.
Defined.

(** X14.  In the popup with the save button a row always shows
    something: for a non-empty URL the label is the last segment of the
    URL when that is not empty, and the whole URL otherwise, as for a URL
    that ends with a slash. *)
Theorem row_label_never_empty (src : string) :
  src <> "" ->
  exists x, row_text (row_v3 src) = Some x /\ x <> "" /\
            (split_pop src <> "" -> x = split_pop src) /\
            (forall a, src = a +:+ "/" -> x = src).
Proof.
  intros Hs. unfold row_v3. cbn [row_text].
  destruct (truthy_str (split_pop src)) eqn:E; eexists; (split; [reflexivity|]).
  - split; [apply truthy_str_ne; exact E|]. split; [reflexivity|].
    intros a ->. unfold split_pop in E.
    rewrite <- (append_empty_r "/"), last_segment_after_slash in E. discriminate.
  - split; [exact Hs|]. split; [|reflexivity].
    intros H. apply truthy_str_ne in H. congruence.
Qed.

Lemma row_label_never_empty_witness :
  row_text (row_v3 "https://cdn.a/lib/") = Some "https://cdn.a/lib/" /\
  row_text (row_v3 X_JS) = Some "x.js".
Proof.
  split.
  - destruct (row_label_never_empty "https://cdn.a/lib/") as (x & E & _ & _ & H);
      [discriminate|].
    rewrite E. f_equal. apply (H "https://cdn.a/lib"). reflexivity.
  - destruct (row_label_never_empty X_JS) as (x & E & _ & H & _); [discriminate|].
    rewrite E. f_equal. apply H. discriminate.
Defined.

Lemma script2_cases (h : Host) (errmsg : string) (w : World) :
  script2 h errmsg w
  = match guarded_id h with
    | None => set_innerHTML NO_TAB (emit CallTabsQuery w)
    | Some id =>
        let w1 := emit (CallExecuteScript (Some id) ListScripts) (emit CallTabsQuery w) in
        if can_inject h (Some id) w then
          let scripts := list_scripts (page w) in
          if (length scripts =? 0)%nat then render row_v2 scripts w1
          else emit (AddListener "refresh-btn" "click") (render row_v2 scripts w1)
        else on_error errmsg w1
    end.
Proof.
  unfold script2. cbn [run_steps script2_step].
  destruct (guarded_id h) as [id|]; [|reflexivity].
  cbn [script2_step]. unfold inject_list. rewrite !can_inject_emit.
  destruct (can_inject h (Some id) w); [|reflexivity].
  cbn [emit page]. destruct (length (list_scripts (page w)) =? 0)%nat; reflexivity.
Qed.

Lemma script3_cases (h : Host) (errmsg : string) (w : World) :
  script3 h errmsg w
  = match guarded_id h with
    | None => set_innerHTML NO_TAB (emit CallTabsQuery w)
    | Some id =>
        let w1 := emit (CallExecuteScript (Some id) ListScripts) (emit CallTabsQuery w) in
        if can_inject h (Some id) w then
          let scripts := list_scripts (page w) in
          if (length scripts =? 0)%nat then render row_v3 scripts w1
          else restore h (storageKey id)
                 (emit (AddListener "save-btn" "click")
                    (emit (CallStorageGet (storageKey id)) (render row_v3 scripts w1)))
        else on_error errmsg w1
    end.
Proof.
  unfold script3. cbn [run_steps script3_step].
  destruct (guarded_id h) as [id|]; [|reflexivity].
  cbn [script3_step]. unfold inject_list. rewrite !can_inject_emit.
  destruct (can_inject h (Some id) w); [|reflexivity].
  cbn [emit page]. destruct (length (list_scripts (page w)) =? 0)%nat; reflexivity.
Qed.

(** X15.  A refused injection ends the listing in the [catch] block, in
    the second revision of script.js and in the popup with the save
    button alike: the list is the one line [Error: ] followed by the
    browser's message, the error is written to the console, the storage is
    not read and no button gets a listener. *)
Theorem refused_listing_shows_the_error (h : Host) (errmsg : string) (w : World) (id : Z) :
  guarded_id h = Some id -> can_inject h (Some id) w = false ->
  script2 h errmsg w = script3 h errmsg w /\
  script_list (script2 h errmsg w)
  = {| list_html := "<li>Error: " +:+ errmsg +:+ "</li>"; list_rows := [] |} /\
  events (script2 h errmsg w)
  = events w ++ [CallTabsQuery; CallExecuteScript (Some id) ListScripts;
                 ConsoleError "Error:"].
Proof.
  intros Hg Hi. rewrite script2_cases, script3_cases, Hg. cbn zeta. rewrite Hi.
  split; [reflexivity|]. split; [reflexivity|].
  unfold on_error. cbn [set_innerHTML set_list emit events]. rewrite <- !app_assoc. reflexivity.
Qed.

Lemma refused_listing_shows_the_error_witness :
  let h := example_host (Some 7%Z) false false in
  let w := {| store := empty_storage; page := restricted_page two_scripts;
              script_list := {| list_html := ""; list_rows := [] |}; events := [] |} in
  script_list (script3 h "Cannot access a chrome:// URL" w)
  = {| list_html := "<li>Error: Cannot access a chrome:// URL</li>"; list_rows := [] |}.
Proof.
  cbn zeta.
  destruct (refused_listing_shows_the_error (example_host (Some 7%Z) false false)
              "Cannot access a chrome:// URL"
              {| store := empty_storage; page := restricted_page two_scripts;
                 script_list := {| list_html := ""; list_rows := [] |}; events := [] |}
              7%Z eq_refl eq_refl) as (E & L & _).
  rewrite <- E. exact L.
Defined.

Lemma restore_extends (h : Host) (key : string) (w : World) :
  exists new, events (restore h key w) = events w ++ new.
Proof.
  unfold restore. destruct (area_get (get_fails h) key (local (store w))).
  - eexists. cbn [emit set_list events]. rewrite <- app_assoc. reflexivity.
  - eexists. reflexivity.
Qed.

(** X16.  A button works only beside a list.  From a popup that has just
    opened, the second revision of script.js gives the refresh button its
    listener exactly when it has put at least one row in the list, and the
    popup with the save button does the same for the save button: with no
    tab, a refused injection or no external script, the button does
    nothing. *)
Theorem button_wired_iff_rows (h : Host) (errmsg : string) (st : Storage) (p : Page) :
  let w2 := script2 h errmsg (popup_open st p) in
  let w3 := script3 h errmsg (popup_open st p) in
  (In (AddListener "refresh-btn" "click") (events w2) <-> list_rows (script_list w2) <> []) /\
  (In (AddListener "save-btn" "click") (events w3) <-> list_rows (script_list w3) <> []).
Proof.
  cbn zeta. rewrite script2_cases, script3_cases.
  destruct (guarded_id h) as [id|].
  - cbn zeta. destruct (can_inject h (Some id) (popup_open st p)).
    + destruct (list_scripts (page (popup_open st p))) as [|s l] eqn:E.
      * cbn [length Nat.eqb]. rewrite !render_list, !render_events. cbn.
        split; split; intros H; try contradiction;
          decompose [or] H; try discriminate; contradiction.
      * cbn [length Nat.eqb]. split.
        -- cbn [emit events script_list]. rewrite render_list. cbn [list_rows map].
           split; [intros _; discriminate|]. intros _. apply in_or_app. right. left. reflexivity.
        -- match goal with |- context [restore h ?k ?x] =>
             destruct (restore_rows h k x) as [_ H2];
             assert (Hev : In (AddListener "save-btn" "click") (events (restore h k x)))
               by (destruct (restore_extends h k x) as [new ->]; apply in_or_app; left;
                   cbn [emit events]; apply in_or_app; right; left; reflexivity)
           end.
           split; [intros _|intros _; exact Hev].
           intros C. rewrite C in H2. cbn [emit script_list] in H2.
           rewrite render_list in H2. discriminate.
    + unfold on_error. cbn. split; split; intros H; try contradiction;
        decompose [or] H; try discriminate; contradiction.
  - cbn. split; split; intros H; try contradiction;
      decompose [or] H; try discriminate; contradiction.
Qed.

(** ** Saving and coming back *)

Lemma list_scripts_truthy (p : Page) (s : string) :
  In s (list_scripts p) -> truthy_str s = true.
Proof.
  unfold list_scripts. intros H. apply list_elem_of_In, list_elem_of_filter in H as [H _].
  apply Is_true_true. exact H.
Qed.

Lemma save_click_record (h : Host) (id : Z) (w : World) :
  set_fails h = false ->
  local (store (save_click h id w)) !! storageKey id
  = Some (VList (map span_title
                   (filter (fun r => row_checked r) (list_rows (script_list w))))).
Proof.
  intros Hs. destruct (save_click_local h id w) as [_ El]. rewrite El.
  unfold area_set. rewrite Hs.
  erewrite lookup_union_Some_l; [reflexivity | apply lookup_singleton_eq].
Qed.

Lemma save_click_page (h : Host) (id : Z) (w : World) :
  page (save_click h id w) = page w.
Proof. unfold save_click. destruct (set_fails h); reflexivity. Qed.

(** X17.  What is saved comes back.  With a storage that answers, after a
    click on Save the popup opened again on the same tab lists the page's
    scripts and checks exactly the rows whose URL is among the saved ones,
    the titles of the rows that were checked at the click. *)
Theorem saved_rows_come_back_checked (h : Host) (errmsg : string) (w : World) (id : Z) :
  guarded_id h = Some id -> get_fails h = false -> set_fails h = false ->
  can_inject h (Some id) w = true ->
  let saved := map span_title
                 (filter (fun r => row_checked r) (list_rows (script_list w))) in
  let rows := list_rows (script_list (script3 h errmsg (save_click h id w))) in
  map span_title rows = list_scripts (page w) /\
  map row_checked rows = map (has saved) (list_scripts (page w)).
Proof.
  intros Hg Hget Hset Hi. cbn zeta.
  rewrite script3_cases, Hg. cbn zeta.
  assert (Hi' : can_inject h (Some id) (save_click h id w) = true).
  { unfold can_inject. rewrite save_click_page. exact Hi. }
  rewrite Hi', save_click_page.
  pose proof (list_scripts_truthy (page w)) as Ht.
  destruct (list_scripts (page w)) as [|s l] eqn:E.
  - cbn [length Nat.eqb]. rewrite render_list. split; reflexivity.
  - cbn [length Nat.eqb].
    set (x := emit (AddListener "save-btn" "click") _).
    assert (Hx : list_rows (script_list x) = map row_v3 (s :: l)).
    { unfold x. cbn [emit script_list]. rewrite render_list. reflexivity. }
    assert (Hst : local (store x) !! storageKey id
                  = Some (VList (map span_title
                                   (filter (fun r => row_checked r)
                                      (list_rows (script_list w)))))).
    { unfold x. cbn [emit store].
      rewrite (proj1 (render_frame row_v3 (s :: l) _)). cbn [emit store].
      apply save_click_record, Hset. }
    unfold restore, area_get. rewrite Hget, Hst, lookup_singleton_eq.
    cbn [emit set_list script_list list_rows]. rewrite Hx, !map_map.
    split.
    + rewrite <- (span_title_row_v3 (s :: l)) at 2. rewrite map_map.
      apply map_ext. intros u.
      destruct (truthy_str (span_title (row_v3 u)) && has _ (span_title (row_v3 u)));
        reflexivity.
    + apply map_ext_in. intros u Hu.
      change (span_title (row_v3 u)) with u. rewrite (Ht u Hu). cbn [andb].
      destruct (has _ u); reflexivity.
Qed.

Lemma saved_rows_come_back_checked_witness :
  let h := example_host (Some 7%Z) false false in
  let w := example_world empty_storage two_scripts
             [RowNodes X_JS "x.js" false; RowNodes Y_JS "y.js" true] in
  map row_checked (list_rows (script_list (script3 h "" (save_click h 7%Z w))))
  = [false; true].
Proof.
  cbn zeta.
  destruct (saved_rows_come_back_checked (example_host (Some 7%Z) false false) ""
              (example_world empty_storage two_scripts
                 [RowNodes X_JS "x.js" false; RowNodes Y_JS "y.js" true])
              7%Z eq_refl eq_refl eq_refl eq_refl) as [_ H].
  rewrite H. reflexivity.
Defined.

Lemma Number_toString_inj (a b : Z) : Number_toString a = Number_toString b -> a = b.
Proof.
  unfold Number_toString. intros E. apply DecimalZ.to_int_inj.
  assert (N : forall z, Z.to_int z <> Decimal.Pos Decimal.Nil /\
                        Z.to_int z <> Decimal.Neg Decimal.Nil).
  { intros [|q|q]; cbn; split; try discriminate; intros C; inversion C as [C'];
      apply (DecimalPos.Unsigned.to_uint_nonnil q C'). }
  assert (S : forall z, NilZero.int_of_string (NilZero.string_of_int (Z.to_int z))
                        = Some (Z.to_int z)).
  { intros z. apply NilZero.isi; apply N. }
  pose proof (S a) as Sa. rewrite E, S in Sa. inversion Sa. reflexivity.
Qed.

Lemma storageKey_inj (a b : Z) : storageKey a = storageKey b -> a = b.
Proof.
  unfold storageKey. intros E. apply String.app_inj in E. apply Number_toString_inj, E.
Qed.

(** X18.  A save touches one record.  A click on Save in the popup of one
    tab writes that tab's record and nothing else: the session area, the record of every other tab and the
    global Blocked Map, wherever it is kept, are as they were.  Two tabs
    never share a key. *)
Theorem save_touches_one_record (h h' : Host) (id : Z) (w : World) :
  session (store (save_click h id w)) = session (store w) /\
  (forall k, k <> storageKey id ->
     local (store (save_click h id w)) !! k = local (store w) !! k) /\
  (forall id', id' <> id ->
     local (store (save_click h id w)) !! storageKey id'
     = local (store w) !! storageKey id') /\
  getBlockedMap h' (store (save_click h id w)) = getBlockedMap h' (store w).
Proof.
  destruct (save_click_local h id w) as [Es El].
  assert (Ho : forall k, k <> storageKey id ->
               local (store (save_click h id w)) !! k = local (store w) !! k).
  { intros k Hk. rewrite El. unfold area_set. destruct (set_fails h); [reflexivity|].
    rewrite lookup_union_r; [reflexivity|]. apply lookup_singleton_ne. congruence. }
  split; [exact Es|]. split; [exact Ho|]. split.
  - intros id' Hid. apply Ho. intros C. apply Hid, storageKey_inj, C.
  - unfold getBlockedMap, storageGet, area_get, store_area.
    destruct (get_fails h'); [reflexivity|].
    destruct (has_session h'); [rewrite Es; reflexivity|].
    rewrite Ho; [reflexivity|]. intros C. symmetry in C. apply (storageKey_not_global id C).
Qed.

(** ** Reconciliation *)

Lemma row_title_set_checked (c : bool) (r : Row) : row_title (set_checked c r) = row_title r.
Proof. destruct r; reflexivity. Qed.

Lemma row_checked_set_checked (c : bool) (r : Row) : row_checked (set_checked c r) = c.
Proof. destruct r; reflexivity. Qed.

Lemma reconcile_row_checked (h : Host) (m : gmap string bool) (r : Row) :
  row_checked (reconcile_row h m r)
  = row_checked r ||
    (truthy_str (getUrlFromCheckbox h r) &&
     bool_decide (m !! getUrlFromCheckbox h r = Some true)).
Proof.
  unfold reconcile_row, getUrlFromCheckbox.
  destruct (truthy_str _ && bool_decide _).
  - rewrite row_checked_set_checked, orb_true_r. reflexivity.
  - rewrite orb_false_r. reflexivity.
Qed.

(** X19.  A toggle is seen by the next reconciliation.  With a storage
    that answers, after the handler has run for a row with a non-empty
    key, reconciling a fresh, unchecked copy of that row against the
    stored map gives the box the state the user left it in; a row with
    another key is reconciled as it would have been before the toggle. *)
Theorem toggle_then_reconcile (h : Host) (i : nat) (w : World) (r : Row) :
  get_fails h = false -> set_fails h = false ->
  list_rows (script_list w) !! i = Some r ->
  truthy_str (getUrlFromCheckbox h r) = true ->
  let old := getBlockedMap h (store w) in
  let new := getBlockedMap h (store (onCheckboxChange h i w)) in
  row_checked (reconcile_row h new (set_checked false r)) = row_checked r /\
  (forall r', getUrlFromCheckbox h r' <> getUrlFromCheckbox h r ->
              reconcile_row h new r' = reconcile_row h old r').
Proof.
  intros Hg Hs Er Ek. cbn zeta.
  rewrite (onCheckboxChange_writes h i w r Er Ek).
  unfold updateBlockedEntry. cbn [snd]. rewrite getBlockedMap_set by assumption.
  assert (Hk : getUrlFromCheckbox h (set_checked false r) = getUrlFromCheckbox h r).
  { unfold getUrlFromCheckbox. rewrite row_title_set_checked. reflexivity. }
  split.
  - rewrite reconcile_row_checked, row_checked_set_checked, Hk, Ek. cbn [orb andb].
    destruct (row_checked r).
    + rewrite lookup_insert_eq. apply bool_decide_eq_true. reflexivity.
    + rewrite lookup_delete_eq. apply bool_decide_eq_false. discriminate.
  - intros r' Hne. unfold reconcile_row. fold (getUrlFromCheckbox h r').
    destruct (row_checked r).
    + rewrite lookup_insert_ne by congruence. reflexivity.
    + rewrite lookup_delete_ne by congruence. reflexivity.
Qed.

Lemma toggle_then_reconcile_witness :
  let h := example_host (Some 7%Z) false false in
  let w := example_world empty_storage two_scripts
             [set_checked true (row_v2 X_JS); row_v2 Y_JS] in
  let new := getBlockedMap h (store (onCheckboxChange h 0 w)) in
  row_checked (reconcile_row h new (row_v2 X_JS)) = true /\
  row_checked (reconcile_row h new (row_v2 Y_JS)) = false.
Proof.
  cbn zeta.
  destruct (toggle_then_reconcile (example_host (Some 7%Z) false false) 0
              (example_world empty_storage two_scripts
                 [set_checked true (row_v2 X_JS); row_v2 Y_JS])
              (set_checked true (row_v2 X_JS)) eq_refl eq_refl eq_refl eq_refl) as [H1 H2].
  split; [exact H1|]. rewrite H2; [reflexivity|]. vm_compute. discriminate.
Defined.

(** X20.  A read that answers too early is lost.  When the second
    segment of [init] runs while the list has no rows (the stored map came
    back before the page script filled the list), [init] is over: whatever
    tasks follow, the checkboxes are never reconciled with the stored
    map. *)
Theorem early_read_never_reconciles (h : Host) (errmsg : string) (s : Popup)
    (sched : list Task) :
  pc_init s = I_await_get ->
  list_rows (script_list (world s)) = [] ->
  existsb is_reconciled (events (world s)) = false ->
  let s' := fold_left (fun s t => task_step h errmsg t s) (RunInit :: sched) s in
  pc_init s' = I_done /\ existsb is_reconciled (events (world s')) = false.
Proof.
  intros Hpc Hrows Hev. cbn zeta. cbn [fold_left task_step].
  rewrite Hpc. cbn [init_step]. rewrite Hrows. cbn [length Nat.eqb].
  set (s1 := {| pc_script := pc_script s; pc_init := I_done; world := world s |}).
  assert (J1 : pc_init s1 = I_done /\ existsb is_reconciled (events (world s1)) = false)
    by (split; [reflexivity | exact Hev]).
  clearbody s1. clear Hpc Hrows Hev. revert s1 J1.
  induction sched as [|t sched IH]; intros s1 J1; [exact J1|].
  cbn [fold_left]. apply IH. destruct J1 as [Jp Je]. destruct t as [| |i]; cbn [task_step].
  - pose proof (script2_step_facts h errmsg (pc_script s1) (world s1)) as [(new & E & F) _].
    cbn zeta in E, F. destruct (script2_step h errmsg (pc_script s1) (world s1)) as [pc w'].
    cbn [snd] in E, F. cbn [pc_init world]. split; [exact Jp|].
    rewrite E, existsb_app, Je. cbn [orb].
    eapply forallb_not_existsb; [|exact F]. intros e He.
    apply negb_true_iff, orb_false_iff in He. tauto.
  - rewrite Jp. cbn [init_step pc_init world]. split; [reflexivity | exact Je].
  - destruct (list_rows (script_list (world s1)) !! i) as [r|]; [|split; assumption].
    cbn [pc_init world]. split; [exact Jp|].
    destruct (toggle_row_rows i (world s1)) as [Et _].
    destruct (change_listener_attached (toggle_row i (world s1))); [|rewrite Et; exact Je].
    destruct (onCheckboxChange_quiet h i (emit (ChangeHandled i) (toggle_row i (world s1))))
      as [(new & E & F) _].
    rewrite E. cbn [emit events]. rewrite Et, !existsb_app, Je. cbn [existsb orb is_reconciled].
    eapply forallb_not_existsb; [|exact F]. intros e He. unfold quiet in He.
    apply negb_true_iff, orb_false_iff in He as [He _].
    apply orb_false_iff in He. tauto.
Qed.

Lemma early_read_never_reconciles_witness :
  let h := example_host (Some 7%Z) false false in
  let sched := dom_content_loaded true ++ [RunInit; RunScript; RunScript; RunInit; RunInit] in
  let s' := popup_run h "" sched {| session := {[ STORAGE_KEY := VMap {[ X_JS := true ]} ]};
                                    local := ∅ |} (example_page two_scripts) in
  length (list_rows (script_list (world s'))) = 2 /\
  existsb is_reconciled (events (world s')) = false.
Proof.
  cbn zeta. split; [reflexivity|].
  unfold popup_run. rewrite fold_left_app.
  apply (early_read_never_reconciles (example_host (Some 7%Z) false false) "" _
           [RunScript; RunScript; RunInit; RunInit]); reflexivity.
Defined.

(** X21.  No row is dropped in silence.  When every URL the constructor
    returns is absolute, a row with a non-empty title has a non-empty key,
    so a change on its checkbox always reaches the storage: the handler
    writes the map that [updateBlockedEntry] computes for that key. *)
Theorem nonempty_title_is_stored (h : Host) (i : nat) (w : World) (r : Row) (raw : string) :
  href_absolute h ->
  list_rows (script_list w) !! i = Some r ->
  row_title r = Some raw -> raw <> "" ->
  getUrlFromCheckbox h r <> "" /\
  store (onCheckboxChange h i w)
  = snd (updateBlockedEntry h (toAbsolute h raw (base_url h)) (row_checked r) (store w)).
Proof.
  intros Ha Er Et Hraw.
  assert (Ek : getUrlFromCheckbox h r = toAbsolute h raw (base_url h)).
  { unfold getUrlFromCheckbox. rewrite Et. reflexivity. }
  assert (Hne : getUrlFromCheckbox h r <> "").
  { rewrite Ek. unfold toAbsolute.
    destruct (URL_href h raw (base_url h)) as [href|] eqn:E; [|exact Hraw].
    apply Ha in E. intros ->. discriminate E. }
  split; [exact Hne|]. rewrite <- Ek.
  apply onCheckboxChange_writes; [exact Er | apply truthy_str_ne, Hne].
Qed.

Lemma nonempty_title_is_stored_witness :
  let h := example_host (Some 7%Z) false false in
  let w := example_world empty_storage two_scripts [set_checked true (row_v2 X_JS)] in
  getUrlFromCheckbox h (set_checked true (row_v2 X_JS)) = X_JS /\
  getBlockedMap h (store (onCheckboxChange h 0 w)) !! X_JS = Some true.
Proof.
  cbn zeta. split; [reflexivity|].
  destruct (nonempty_title_is_stored (example_host (Some 7%Z) false false) 0
              (example_world empty_storage two_scripts [set_checked true (row_v2 X_JS)])
              (set_checked true (row_v2 X_JS)) X_JS
              (example_href_absolute (Some 7%Z) false false) eq_refl eq_refl)
    as [_ H]; [discriminate|].
  rewrite H. reflexivity.
Defined.

Lemma Forall2_map_same {A : Type} (R : A -> A -> Prop) (f : A -> A) (l : list A) :
  (forall x, R x (f x)) -> Forall2 R l (map f l).
Proof. intros H. induction l as [|x l IH]; constructor; [apply H | exact IH]. Qed.

Lemma checked_at_most_refl (r : Row) : checked_at_most r r.
Proof. split; [left; reflexivity|]. split; [reflexivity | intros H; exact H]. Qed.

Lemma checked_at_most_set (r : Row) : checked_at_most r (set_checked true r).
Proof.
  split; [right; reflexivity|].
  split; [apply row_title_set_checked | intros _; apply row_checked_set_checked].
Qed.

Lemma reconciled_from_if (found : Row -> bool) (r : Row) :
  reconciled_from found r (if found r then set_checked true r else r).
Proof.
  unfold reconciled_from. destruct (found r).
  - split; [apply checked_at_most_set|]. rewrite row_checked_set_checked, orb_true_r.
    reflexivity.
  - split; [apply checked_at_most_refl|]. rewrite orb_false_r. reflexivity.
Qed.

(** X22.  Reconciliation checks what it finds and unchecks nothing.  The
    last segment of [init] leaves every row in place with its title, and a
    box is checked afterwards exactly when it was checked before or the
    row's key is not empty and stored as [true]; a box the user checked
    while the read was under way stays checked.  The restore callback of
    the popup with the save button does the same against the saved array:
    a box is checked afterwards exactly when it was checked before or the
    row's title is not empty and in the array; with no record for the tab,
    or after a failed read, every row is as it was. *)
Theorem reconciliation_only_checks (h : Host) (blocked : gmap string bool) (key : string)
    (w : World) :
  let rows := list_rows (script_list w) in
  let after_init := list_rows (script_list (snd (init_step h (I_await_query blocked) w))) in
  let after_restore := list_rows (script_list (restore h key w)) in
  Forall2 (reconciled_from
             (fun r => truthy_str (getUrlFromCheckbox h r) &&
                       bool_decide (blocked !! getUrlFromCheckbox h r = Some true)))
          rows after_init /\
  Forall2 checked_at_most rows after_restore /\
  (get_fails h = false ->
   forall saved, local (store w) !! key = Some (VList saved) ->
     Forall2 (reconciled_from
                (fun r => truthy_str (span_title r) && has saved (span_title r)))
             rows after_restore) /\
  (get_fails h = false -> local (store w) !! key = None -> after_restore = rows) /\
  (get_fails h = true -> after_restore = rows).
Proof.
  cbn zeta. split; [|split; [|split; [|split]]].
  - cbn [init_step snd emit set_list script_list list_rows].
    apply Forall2_map_same. intros r.
    exact (reconciled_from_if
             (fun r => truthy_str (getUrlFromCheckbox h r) &&
                       bool_decide (blocked !! getUrlFromCheckbox h r = Some true)) r).
  - unfold restore. destruct (area_get (get_fails h) key (local (store w))).
    + cbn [emit set_list script_list list_rows].
      apply Forall2_map_same. intros r.
      destruct (truthy_str (span_title r) && has _ (span_title r));
        [apply checked_at_most_set | apply checked_at_most_refl].
    + cbn [emit script_list]. rewrite <- (map_id (list_rows (script_list w))) at 2.
      apply Forall2_map_same. intros r. apply checked_at_most_refl.
  - intros Hg saved Hk. unfold restore, area_get. rewrite Hg, Hk, lookup_singleton_eq.
    cbn [emit set_list script_list list_rows].
    apply Forall2_map_same. intros r.
    exact (reconciled_from_if
             (fun r => truthy_str (span_title r) && has saved (span_title r)) r).
  - intros Hg Hk. unfold restore, area_get. rewrite Hg, Hk, lookup_empty.
    cbn [emit set_list script_list list_rows has existsb].
    rewrite <- (map_id (list_rows (script_list w))) at 2.
    apply map_ext. intros r. rewrite andb_false_r. reflexivity.
  - intros Hg. unfold restore, area_get. rewrite Hg. reflexivity.
Qed.

Lemma reconciliation_only_checks_witness :
  let h := example_host (Some 7%Z) false false in
  let st := {| session := ∅; local := {[ storageKey 7%Z := VList [Y_JS] ]} |} in
  let w := example_world st two_scripts
             [RowNodes X_JS "x.js" true; RowNodes Y_JS "y.js" false; RowNodes "z" "z" false] in
  Forall2 (reconciled_from (fun r => truthy_str (span_title r) && has [Y_JS] (span_title r)))
    (list_rows (script_list w))
    (list_rows (script_list (restore h (storageKey 7%Z) w))) /\
  map row_checked (list_rows (script_list (restore h (storageKey 7%Z) w)))
  = [true; true; false].
Proof.
  cbn zeta. split; [|reflexivity].
  destruct (reconciliation_only_checks (example_host (Some 7%Z) false false) ∅
              (storageKey 7%Z)
              (example_world {| session := ∅; local := {[ storageKey 7%Z := VList [Y_JS] ]} |}
                 two_scripts
                 [RowNodes X_JS "x.js" true; RowNodes Y_JS "y.js" false;
                  RowNodes "z" "z" false]))
    as (_ & _ & H & _).
  apply (H eq_refl [Y_JS]). reflexivity.
Defined.

(** ** Matching in the page *)

Lemma has_In (l : list string) (x : string) : has l x = true <-> In x l.
Proof.
  unfold has. rewrite existsb_exists. split.
  - intros (y & Hy & E). apply String.eqb_eq in E. subst y. exact Hy.
  - intros H. exists x. split; [exact H | apply String.eqb_refl].
Qed.

(** X23.  The probe matches resolved forms.  A script element counts as
    blocked exactly when it has a source and some entry of the blocked
    list resolves, against the page's location, to the same string as that
    source: an entry written in another form than the script's [src]
    (relative, say) blocks it all the same, and a script without a source
    is never blocked. *)
Theorem blocked_src_iff (h : Host) (href : string) (urls : list string) (s : node) :
  blocked_src h href (blockedSet h href urls) s = true <->
  src s <> "" /\ exists u, In u urls /\ abs h href u = abs h href (src s).
Proof.
  unfold blocked_src, blockedSet. rewrite andb_true_iff, truthy_str_ne, has_In, in_map_iff.
  split; intros [H1 (u & H2 & H3)]; (split; [exact H1|]); exists u; split; auto.
Qed.

Lemma blocked_src_iff_witness :
  let h := example_host (Some 7%Z) false false in
  blocked_src h "https://example.com/page"
    (blockedSet h "https://example.com/page" ["/app.js"])
    (script_node 1 "https://example.com/app.js") = true.
Proof.
  cbn zeta.
  apply (blocked_src_iff (example_host (Some 7%Z) false false) "https://example.com/page"
           ["/app.js"] (script_node 1 "https://example.com/app.js")).
  split; [discriminate|]. exists "/app.js". split; [left; reflexivity | reflexivity].
Defined.

(** X24.  A removed script is gone from the next listing.  In a document
    whose nodes are told apart by their identity, after the probe has run
    with a blocked list, the listing probe of the popup reports no URL
    that resolves to the same string as an entry of that list: without a
    reload of the tab, the popup opened again has no row left for it. *)
Theorem removed_script_is_not_listed (h : Host) (urls : list string) (p : Page)
    (u listed : string) :
  NoDup (map nid (nodes (document p))) ->
  In u urls ->
  In listed (list_scripts (probe h urls p)) ->
  abs h (location_href p) listed <> abs h (location_href p) u.
Proof.
  intros Hnd Hu Hl E. unfold list_scripts in Hl.
  apply list_elem_of_In, list_elem_of_filter in Hl as [Ht Hl].
  apply list_elem_of_In, in_map_iff in Hl as (s & Hs & Hin).
  pose proof (probe_leaves_no_blocked_script h urls p s Hnd Hin) as Hb.
  assert (Hyes : blocked_src h (location_href p) (blockedSet h (location_href p) urls) s = true).
  { unfold blocked_src, blockedSet. rewrite Hs. apply Is_true_true in Ht. rewrite Ht.
    cbn [andb]. apply has_In, in_map_iff. exists u. split; [symmetry; exact E | exact Hu]. }
  rewrite Hyes in Hb. discriminate.
Qed.

Lemma removed_script_is_not_listed_witness :
  let h := example_host (Some 7%Z) false false in
  let p := example_page two_scripts in
  list_scripts p = [X_JS; Y_JS] /\
  list_scripts (probe h [X_JS] p) = [Y_JS] /\
  abs h (location_href p) Y_JS <> abs h (location_href p) X_JS.
Proof.
  cbn zeta. split; [reflexivity|]. split; [reflexivity|].
  apply (removed_script_is_not_listed (example_host (Some 7%Z) false false) [X_JS]
           (example_page two_scripts) X_JS Y_JS).
  - apply (bool_decide_unpack _). vm_compute. exact I.
  - left. reflexivity.
  - vm_compute. left. reflexivity.
Defined.
